(** * Organic Buoyancy Solver: the hydrostatic kernel

    A shallow embedding of [utils/geometryUtils.ts] (mesh integration and
    waterline clipping) and of [components/Solver.tsx] (the equilibrium
    solver), together with the parts of three.js and of [Scene.tsx] they
    depend on, the handlers of [App.tsx] that keep the list of external
    weights, and the pixel count of [calculateProjectedAreaGPU].

    The TypeScript code computes on JavaScript numbers.  The embedding is
    written once, over an interface [JSNumber] of the operations the code
    uses, and is then read at two number types:

    - [float], the kernel's binary64 numbers, which are JavaScript's: the
      code is executed there bit for bit, NaN and infinities included;
    - [R], the real numbers: the same code with rounding idealised, where
      the algebraic identities of the kernel are proved.

    What only depends on comparisons (the classification of the vertices,
    the final test against [EPSILON]) is proved once for both, from the laws
    of [JSNumberLaws].

    Contents: the numbers; three.js and [geometryUtils.ts]; [types.ts],
    [Solver.tsx] and the mounting of the solver; the two number types; the
    vocabulary of the specification; the inputs of the examples; [Scene.tsx]
    and [App.tsx]; then the results, on binary64, at both number types, and
    over the reals; and last what the code does beyond them: with an index
    and with left-over vertices, under a change of the order, the winding
    or the place of the mesh, at equilibrium, and in the handlers. *)

From Stdlib Require Import Floats Reals Lra Psatz ZArith Lia List Bool Permutation.
From Stdlib Require String.
Import ListNotations.

Set Implicit Arguments.

(** * JavaScript numbers *)

Declare Scope js_scope.
Delimit Scope js_scope with js.

Class JSNumber (T : Type) : Type := {
  num : Z -> T;               (* an integer literal *)
  add : T -> T -> T;
  sub : T -> T -> T;
  mul : T -> T -> T;
  div : T -> T -> T;
  neg : T -> T;               (* unary minus *)
  Math_abs : T -> T;
  Math_min : T -> T -> T;
  Math_max : T -> T -> T;
  ltb : T -> T -> bool;       (* a < b *)
  leb : T -> T -> bool;       (* a <= b *)
  NaN : T                     (* what arithmetic makes of [undefined] *)
}.

Infix "+" := add : js_scope.
Infix "-" := sub : js_scope.
Infix "*" := mul : js_scope.
Infix "/" := div : js_scope.
Notation "- a" := (neg a) : js_scope.
Infix "<?" := ltb (at level 70, no associativity) : js_scope.
Infix "<=?" := leb (at level 70, no associativity) : js_scope.

Section Kernel.

Context {T : Type} `{JSNumber T}.
Local Open Scope js_scope.

(** A decimal literal [m / 10^k].  Both [m] and [10^k] are small integers,
    and a binary64 division is correctly rounded, so at [float] this is the
    double the JavaScript literal denotes. *)
Definition lit (m : Z) (k : nat) : T := num m / num (10 ^ Z.of_nat k).

(** ** three.js: Vector3, Matrix4, BufferGeometry *)

Record Vector3 : Type := Vec3 { x : T; y : T; z : T }.

(** A 4x4 matrix, by its [elements] array (column-major). *)
Record Matrix4 : Type := Mat4 {
  e0 : T; e1 : T; e2 : T; e3 : T;
  e4 : T; e5 : T; e6 : T; e7 : T;
  e8 : T; e9 : T; e10 : T; e11 : T;
  e12 : T; e13 : T; e14 : T; e15 : T
}.

Definition dot (a b : Vector3) : T :=
  a.(x) * b.(x) + a.(y) * b.(y) + a.(z) * b.(z).

Definition cross (a b : Vector3) : Vector3 :=
  Vec3 (a.(y) * b.(z) - a.(z) * b.(y))
       (a.(z) * b.(x) - a.(x) * b.(z))
       (a.(x) * b.(y) - a.(y) * b.(x)).

Definition multiplyScalar (v : Vector3) (s : T) : Vector3 :=
  Vec3 (v.(x) * s) (v.(y) * s) (v.(z) * s).

Definition divideScalar (v : Vector3) (s : T) : Vector3 :=
  multiplyScalar v (num 1 / s).

Definition addV (a b : Vector3) : Vector3 :=
  Vec3 (a.(x) + b.(x)) (a.(y) + b.(y)) (a.(z) + b.(z)).

Definition applyMatrix4 (m : Matrix4) (v : Vector3) : Vector3 :=
  let w := num 1 / (m.(e3) * v.(x) + m.(e7) * v.(y) + m.(e11) * v.(z) + m.(e15)) in
  Vec3 ((m.(e0) * v.(x) + m.(e4) * v.(y) + m.(e8) * v.(z) + m.(e12)) * w)
       ((m.(e1) * v.(x) + m.(e5) * v.(y) + m.(e9) * v.(z) + m.(e13)) * w)
       ((m.(e2) * v.(x) + m.(e6) * v.(y) + m.(e10) * v.(z) + m.(e14)) * w).

(** A geometry: the [position] attribute, one entry per vertex, and the
    optional index. *)
Record BufferGeometry : Type := Geometry {
  position : list Vector3;
  index : option (list nat)
}.

(** Reading past the end of a typed array gives [undefined], which every
    later operation turns into NaN (and every comparison into false). *)
Definition undefinedVector : Vector3 := Vec3 NaN NaN NaN.

Definition fromBufferAttribute (posAttr : list Vector3) (i : option nat) : Vector3 :=
  match i with
  | Some i => nth i posAttr undefinedVector
  | None => undefinedVector
  end.

(** [index.count] or [posAttr.count]. *)
Definition count (geometry : BufferGeometry) : nat :=
  match geometry.(index) with
  | Some idx => length idx
  | None => length geometry.(position)
  end.

(** The vertex the loops read at slot [k]: through the index when there is
    one, directly otherwise. *)
Definition vertexAt (geometry : BufferGeometry) (k : nat) : Vector3 :=
  match geometry.(index) with
  | Some idx => fromBufferAttribute geometry.(position) (nth_error idx k)
  | None => fromBufferAttribute geometry.(position) (Some k)
  end.

(** [for (let i = 0; i < count / 3; i++)] and
    [for (let i = 0; i < count; i += 3)] both run once per started triple. *)
Definition faces (geometry : BufferGeometry) : nat := ((count geometry + 2) / 3)%nat.

Definition triangleAt (geometry : BufferGeometry) (i : nat)
  : Vector3 * Vector3 * Vector3 :=
  (vertexAt geometry (i * 3), vertexAt geometry (i * 3 + 1), vertexAt geometry (i * 3 + 2)).

Definition triangles (geometry : BufferGeometry) : list (Vector3 * Vector3 * Vector3) :=
  map (triangleAt geometry) (seq 0 (faces geometry)).

(** ** geometryUtils.ts *)

Definition EPSILON : T := lit 1 5.

(** The accumulators of both loops: a signed volume and three moments. *)
Record Accumulator : Type := Acc { accVolume : T; accX : T; accY : T; accZ : T }.

Definition emptyAccumulator : Accumulator := Acc (num 0) (num 0) (num 0) (num 0).

Record MeshProperties : Type := MeshProps { volume : T; cog : Vector3 }.

(** The signed volume of the tetrahedron on the origin and a triangle, as
    [calculateMeshProperties] expands it. *)
Definition meshTerm (p1 p2 p3 : Vector3) : T :=
  let v321 := p3.(x) * p2.(y) * p1.(z) in
  let v231 := p2.(x) * p3.(y) * p1.(z) in
  let v312 := p3.(x) * p1.(y) * p2.(z) in
  let v132 := p1.(x) * p3.(y) * p2.(z) in
  let v213 := p2.(x) * p1.(y) * p3.(z) in
  let v123 := p1.(x) * p2.(y) * p3.(z) in
  (num 1 / num 6) * (- v321 + v231 + v312 - v132 - v213 + v123).

(** One pass of the loop of [calculateMeshProperties]. *)
Definition meshStep (a : Accumulator) (t : Vector3 * Vector3 * Vector3) : Accumulator :=
  let '(p1, p2, p3) := t in
  let term := meshTerm p1 p2 p3 in
  Acc (a.(accVolume) + term)
      (a.(accX) + term * (p1.(x) + p2.(x) + p3.(x)) / num 4)
      (a.(accY) + term * (p1.(y) + p2.(y) + p3.(y)) / num 4)
      (a.(accZ) + term * (p1.(z) + p2.(z) + p3.(z)) / num 4).

Definition meshAccumulate (geometry : BufferGeometry) : Accumulator :=
  fold_left meshStep (triangles geometry) emptyAccumulator.

Definition calculateMeshProperties (geometry : BufferGeometry) : MeshProperties :=
  let a := meshAccumulate geometry in
  MeshProps (Math_abs a.(accVolume))
            (Vec3 (a.(accX) / a.(accVolume))
                  (a.(accY) / a.(accVolume))
                  (a.(accZ) / a.(accVolume))).

Definition addTriangleContribution (a : Accumulator) (p1 p2 p3 : Vector3) : Accumulator :=
  let vol := dot p1 (cross p2 p3) / num 6 in
  Acc (a.(accVolume) + vol)
      (a.(accX) + vol * (p1.(x) + p2.(x) + p3.(x)) / num 4)
      (a.(accY) + vol * (p1.(y) + p2.(y) + p3.(y)) / num 4)
      (a.(accZ) + vol * (p1.(z) + p2.(z) + p3.(z)) / num 4).

Definition intersectPlane (p1 p2 : Vector3) : Vector3 :=
  let t := - p1.(z) / (p2.(z) - p1.(z)) in
  Vec3 (p1.(x) + t * (p2.(x) - p1.(x)))
       (p1.(y) + t * (p2.(y) - p1.(y)))
       (num 0).

Definition isUnder (v : Vector3) : bool := v.(z) <? num 0.

Definition countUnder (vA vB vC : Vector3) : nat :=
  ((if isUnder vA then 1 else 0) + (if isUnder vB then 1 else 0)
   + (if isUnder vC then 1 else 0))%nat.

(** The body of the clipping loop, on a triangle already in world space. *)
Definition clipTriangle (a : Accumulator) (vA vB vC : Vector3) : Accumulator :=
  let aUnder := isUnder vA in
  let bUnder := isUnder vB in
  let cUnder := isUnder vC in
  match countUnder vA vB vC with
  | 0%nat => a
  | 3%nat => addTriangleContribution a vA vB vC
  | 1%nat =>
      let '(pUnder, pOver1, pOver2) :=
        if aUnder then (vA, vB, vC)
        else if bUnder then (vB, vC, vA)
        else (vC, vA, vB) in
      let i1 := intersectPlane pUnder pOver1 in
      let i2 := intersectPlane pUnder pOver2 in
      if aUnder then addTriangleContribution a pUnder i1 i2
      else if bUnder then addTriangleContribution a i2 pUnder i1
      else addTriangleContribution a i1 i2 pUnder
  | 2%nat =>
      let '(pOver, pUnder1, pUnder2) :=
        if negb aUnder then (vA, vB, vC)
        else if negb bUnder then (vB, vC, vA)
        else (vC, vA, vB) in
      let i1 := intersectPlane pOver pUnder1 in
      let i2 := intersectPlane pOver pUnder2 in
      if negb aUnder then
        addTriangleContribution (addTriangleContribution a i1 pUnder1 pUnder2)
                                i1 pUnder2 i2
      else if negb bUnder then
        addTriangleContribution (addTriangleContribution a pUnder2 i2 i1)
                                pUnder2 i1 pUnder1
      else
        addTriangleContribution (addTriangleContribution a pUnder1 pUnder2 i2)
                                pUnder1 i2 i1
  | _ => a
  end.

Definition clipStep (matrixWorld : Matrix4) (a : Accumulator)
           (t : Vector3 * Vector3 * Vector3) : Accumulator :=
  let '(vA, vB, vC) := t in
  clipTriangle a (applyMatrix4 matrixWorld vA)
                 (applyMatrix4 matrixWorld vB)
                 (applyMatrix4 matrixWorld vC).

Definition clipAccumulate (geometry : BufferGeometry) (matrixWorld : Matrix4) : Accumulator :=
  fold_left (clipStep matrixWorld) (triangles geometry) emptyAccumulator.

Record SubmergedProperties : Type := Submerged { subVolume : T; center : Vector3 }.

(** The final test of [calculateSubmergedProperties], on the accumulators. *)
Definition submergedResult (a : Accumulator) : SubmergedProperties :=
  if Math_abs a.(accVolume) <? EPSILON then
    Submerged (num 0) (Vec3 (num 0) (num 0) (num 0))
  else
    Submerged (Math_abs a.(accVolume))
              (Vec3 (a.(accX) / a.(accVolume))
                    (a.(accY) / a.(accVolume))
                    (a.(accZ) / a.(accVolume))).

Definition calculateSubmergedProperties (geometry : BufferGeometry)
           (matrixWorld : Matrix4) : SubmergedProperties :=
  submergedResult (clipAccumulate geometry matrixWorld).

End Kernel.

Arguments Vector3 T : clear implicits.
Arguments Matrix4 T : clear implicits.
Arguments BufferGeometry T : clear implicits.
Arguments Accumulator T : clear implicits.
Arguments MeshProperties T : clear implicits.
Arguments SubmergedProperties T : clear implicits.

(** ** types.ts *)

Module PhysicalProperties.
Record t (T : Type) : Type := Make {
  mass : T;
  density : T;
  volume : T;
  cog : Vector3 T
}.
End PhysicalProperties.

Module ExternalWeight.
Record t (T : Type) : Type := Make {
  mass : T;
  position : Vector3 T
}.
End ExternalWeight.

Module SolverResult.
Record t (T : Type) : Type := Make {
  displacement : T;
  rotationX : T;
  rotationY : T;
  submergedVolume : T;
  cob : Vector3 T;
  totalMass : T;
  combinedCOG : Vector3 T
}.
End SolverResult.

(** ** Solver.tsx *)

Section Solver.

Context {T : Type} `{JSNumber T}.
Local Open Scope js_scope.

(** [objectGroup.updateMatrixWorld(true)]: the world matrix three.js builds
    from [position.z], [rotation.x] and [rotation.y] of the group.  It is
    three.js's and uses sine and cosine; the solver only passes it on. *)
Variable updateMatrixWorld : T -> T -> T -> Matrix4 T.

(** The three [useRef(0)] of the component. *)
Record SolverState : Type := State { positionZ : T; rotationX : T; rotationY : T }.

Definition initialState : SolverState := State (num 0) (num 0) (num 0).

Definition DAMPING_TRANSLATION : T := lit 1 1.
Definition DAMPING_ROTATION : T := lit 5 2.
Definition MAX_ITERATIONS : nat := 5.
Definition GRAVITY : T := lit 981 2.

(** Step 1 of the frame callback: total mass and the weighted sum of the
    centres, then [momentSum.divideScalar(totalMass)]. *)
Definition totalMassAndMoment (baseProperties : PhysicalProperties.t T)
           (weights : list (ExternalWeight.t T)) : T * Vector3 T :=
  fold_left
    (fun '(totalMass, momentSum) w =>
       (totalMass + w.(ExternalWeight.mass),
        addV momentSum
             (multiplyScalar w.(ExternalWeight.position) w.(ExternalWeight.mass))))
    weights
    (baseProperties.(PhysicalProperties.mass),
     multiplyScalar baseProperties.(PhysicalProperties.cog)
                    baseProperties.(PhysicalProperties.mass)).

Definition combinedCOG_Local (baseProperties : PhysicalProperties.t T)
           (weights : list (ExternalWeight.t T)) : Vector3 T :=
  let '(totalMass, momentSum) := totalMassAndMoment baseProperties weights in
  divideScalar momentSum totalMass.

(** The quantities one pass of the inner loop derives from the pose. *)
Definition netForceZ (submergedVol waterDensity totalMass : T) : T :=
  let buoyancyForce := submergedVol * waterDensity * GRAVITY in
  let weightForce := totalMass * GRAVITY in
  buoyancyForce - weightForce.

(** The horizontal offsets [dx] and [dy] of a pass: the world centre of
    gravity minus the centre of buoyancy, along x and along y. *)
Definition dx (meshGeometry : BufferGeometry T) (cogLocal : Vector3 T) (s : SolverState) : T :=
  let matrixWorld := updateMatrixWorld s.(positionZ) s.(rotationX) s.(rotationY) in
  (applyMatrix4 matrixWorld cogLocal).(x)
  - (calculateSubmergedProperties meshGeometry matrixWorld).(center).(x).

Definition dy (meshGeometry : BufferGeometry T) (cogLocal : Vector3 T) (s : SolverState) : T :=
  let matrixWorld := updateMatrixWorld s.(positionZ) s.(rotationX) s.(rotationY) in
  (applyMatrix4 matrixWorld cogLocal).(y)
  - (calculateSubmergedProperties meshGeometry matrixWorld).(center).(y).

(** The submerged volume a pass finds. *)
Definition submergedVol (meshGeometry : BufferGeometry T) (s : SolverState) : T :=
  (calculateSubmergedProperties
     meshGeometry (updateMatrixWorld s.(positionZ) s.(rotationX) s.(rotationY))).(subVolume).

(** One pass of the inner loop: the new pose, and the snapshot [onUpdate]
    would get from it. *)
Definition solverIteration (meshGeometry : BufferGeometry T) (waterDensity totalMass : T)
           (cogLocal : Vector3 T) (s : SolverState) : SolverState * SolverResult.t T :=
  let matrixWorld := updateMatrixWorld s.(positionZ) s.(rotationX) s.(rotationY) in
  let sub := calculateSubmergedProperties meshGeometry matrixWorld in
  let submergedVol := sub.(subVolume) in
  let cobWorld := sub.(center) in
  let netForceZ := netForceZ submergedVol waterDensity totalMass in
  let heaveStep := netForceZ * lit 5 5 in
  let heaveStep := Math_max (- lit 5 1) (Math_min (lit 5 1) heaveStep) in
  let positionZ' := s.(positionZ) + heaveStep * DAMPING_TRANSLATION in
  let cogWorld := applyMatrix4 matrixWorld cogLocal in
  let dx := cogWorld.(x) - cobWorld.(x) in
  let dy := cogWorld.(y) - cobWorld.(y) in
  let pitchStep := dy * lit 2 2 in
  let rollStep := dx * lit 2 2 in
  let pitchStep := Math_max (- lit 5 2) (Math_min (lit 5 2) pitchStep) in
  let rollStep := Math_max (- lit 5 2) (Math_min (lit 5 2) rollStep) in
  let rotationX' := s.(rotationX) - pitchStep * DAMPING_ROTATION in
  let rotationY' := s.(rotationY) + rollStep * DAMPING_ROTATION in
  (State positionZ' rotationX' rotationY',
   SolverResult.Make positionZ' rotationX' rotationY' submergedVol cobWorld
                     totalMass cogWorld).

(** [for (let i = 0; i < MAX_ITERATIONS; i++)], with [remaining] passes to
    go; only the last pass reports. *)
Fixpoint solverLoop (remaining : nat) (meshGeometry : BufferGeometry T)
         (waterDensity totalMass : T) (cogLocal : Vector3 T) (s : SolverState)
  : SolverState * option (SolverResult.t T) :=
  match remaining with
  | O => (s, None)
  | S k =>
      let '(s', r) := solverIteration meshGeometry waterDensity totalMass cogLocal s in
      match k with
      | O => (s', Some r)
      | S _ => solverLoop k meshGeometry waterDensity totalMass cogLocal s'
      end
  end.

(** The callback given to [useFrame]: one tick.  [targetRef] tells whether
    [targetRef.current] is set. *)
Definition useFrame (meshGeometry : option (BufferGeometry T)) (targetRef : bool)
           (baseProperties : PhysicalProperties.t T)
           (weights : list (ExternalWeight.t T)) (waterDensity : T)
           (s : SolverState) : SolverState * option (SolverResult.t T) :=
  match meshGeometry with
  | None => (s, None)
  | Some geometry =>
      if negb targetRef then (s, None)
      else
        let totalMass := fst (totalMassAndMoment baseProperties weights) in
        solverLoop MAX_ITERATIONS geometry waterDensity totalMass
                   (combinedCOG_Local baseProperties weights) s
  end.

(** The pose after [n] ticks on the same inputs. *)
Fixpoint afterTicks (n : nat) (meshGeometry : option (BufferGeometry T)) (targetRef : bool)
         (baseProperties : PhysicalProperties.t T)
         (weights : list (ExternalWeight.t T)) (waterDensity : T)
         (s : SolverState) : SolverState :=
  match n with
  | O => s
  | S k =>
      afterTicks k meshGeometry targetRef baseProperties weights waterDensity
                 (fst (useFrame meshGeometry targetRef baseProperties weights waterDensity s))
  end.

(** ** Scene.tsx: what [SceneContent] hands to the solver *)

(** The effect that recomputes the physical properties of the loaded mesh. *)
Definition sceneBaseProps (geometry : BufferGeometry T) (baseDensity : T)
  : PhysicalProperties.t T :=
  let p := calculateMeshProperties geometry in
  PhysicalProperties.Make (p.(volume) * baseDensity) baseDensity p.(volume) p.(cog).

(** [<Solver key={geometry?.uuid || 'no-geo'} .../>]: React keeps a mounted
    component, and its refs, while the key stays the same and mounts a fresh
    one, whose refs start from their initial value, when the key changes. *)
Record SolverInstance : Type := Mounted { key : option nat; refs : SolverState }.

Definition sameKey (a b : option nat) : bool :=
  match a, b with
  | Some i, Some j => Nat.eqb i j
  | None, None => true
  | _, _ => false
  end.

Definition mountSolver (k : option nat) : SolverInstance := Mounted k initialState.

Definition renderSolver (mounted : SolverInstance) (k : option nat) : SolverInstance :=
  if sameKey mounted.(key) k then mounted else mountSolver k.

End Solver.

Arguments SolverState T : clear implicits.
Arguments SolverInstance T : clear implicits.

(** * The two number types *)

(** ** binary64 *)

Definition float_of_Z (n : Z) : float :=
  match n with
  | Z0 => PrimFloat.zero
  | Zpos _ => PrimFloat.of_uint63 (Uint63.of_Z n)
  | Zneg p => PrimFloat.opp (PrimFloat.of_uint63 (Uint63.of_Z (Zpos p)))
  end.

(** [Math.min] and [Math.max]: NaN if either argument is, and -0 below +0. *)
Definition float_min (a b : float) : float :=
  if PrimFloat.is_nan a || PrimFloat.is_nan b then PrimFloat.nan
  else if PrimFloat.ltb a b then a
  else if PrimFloat.ltb b a then b
  else if PrimFloat.get_sign a then a else b.

Definition float_max (a b : float) : float :=
  if PrimFloat.is_nan a || PrimFloat.is_nan b then PrimFloat.nan
  else if PrimFloat.ltb a b then b
  else if PrimFloat.ltb b a then a
  else if PrimFloat.get_sign a then b else a.

#[export] Instance float64 : JSNumber float := {
  num := float_of_Z;
  add := PrimFloat.add;
  sub := PrimFloat.sub;
  mul := PrimFloat.mul;
  div := PrimFloat.div;
  neg := PrimFloat.opp;
  Math_abs := PrimFloat.abs;
  Math_min := float_min;
  Math_max := float_max;
  ltb := PrimFloat.ltb;
  leb := PrimFloat.leb;
  NaN := PrimFloat.nan
}.

(** ** real numbers *)

Definition Rltb (a b : R) : bool := if Rlt_dec a b then true else false.
Definition Rleb (a b : R) : bool := if Rle_dec a b then true else false.

(** There is no NaN among the reals: a read past the end of an array is given
    the value 0 there.  A division by zero has the value [a * / 0] of
    [Rdiv]; no statement below depends on what that is. *)
#[export] Instance exactR : JSNumber R := {
  num := IZR;
  add := Rplus;
  sub := Rminus;
  mul := Rmult;
  div := Rdiv;
  neg := Ropp;
  Math_abs := Rabs;
  Math_min := Rmin;
  Math_max := Rmax;
  ltb := Rltb;
  leb := Rleb;
  NaN := 0%R
}.

(** * The vocabulary of the specification *)

Section Specification.

Context {T : Type} `{JSNumber T}.
Local Open Scope js_scope.

(** [clamp(v, lo, hi)]. *)
Definition clamp (v lo hi : T) : T :=
  if v <? lo then lo else if hi <? v then hi else v.















(** Every vertex of every triangle is on or above the plane in world space. *)
Definition entirelyAbove (geometry : BufferGeometry T) (matrixWorld : Matrix4 T) : Prop :=
  Forall (fun '(vA, vB, vC) =>
            (num 0 <=? (applyMatrix4 matrixWorld vA).(z)) = true
            /\ (num 0 <=? (applyMatrix4 matrixWorld vB).(z)) = true
            /\ (num 0 <=? (applyMatrix4 matrixWorld vC).(z)) = true)
         (triangles geometry).

Definition origin : Vector3 T := Vec3 (num 0) (num 0) (num 0).

Definition identityMatrix : Matrix4 T :=
  Mat4 (num 1) (num 0) (num 0) (num 0)
       (num 0) (num 1) (num 0) (num 0)
       (num 0) (num 0) (num 1) (num 0)
       (num 0) (num 0) (num 0) (num 1).

(** The translation by [dz] along the vertical. *)
Definition heaveMatrix (dz : T) : Matrix4 T :=
  Mat4 (num 1) (num 0) (num 0) (num 0)
       (num 0) (num 1) (num 0) (num 0)
       (num 0) (num 0) (num 1) (num 0)
       (num 0) (num 0) dz (num 1).

(** How the clipping loop classifies the triangles of a geometry. *)
Definition classification (geometry : BufferGeometry T) (matrixWorld : Matrix4 T)
  : list (bool * bool * bool) :=
  map (fun '(vA, vB, vC) =>
         (isUnder (applyMatrix4 matrixWorld vA), isUnder (applyMatrix4 matrixWorld vB),
          isUnder (applyMatrix4 matrixWorld vC)))
      (triangles geometry).

(** ** A mesh moved by a matrix *)









(** ** What the clipping loop keeps of a triangle *)



End Specification.

(** What the proofs that hold at both number types use of the numbers. *)
Class JSNumberLaws (T : Type) `{JSNumber T} : Prop := {
  abs_zero : Math_abs (num 0) = num 0;
  zero_below_EPSILON : ltb (num 0) EPSILON = true;
  not_below_zero : forall a : T, leb (num 0) a = true -> ltb a (num 0) = false
}.

Arguments JSNumberLaws T {_}.

(** * The inputs of the examples *)

Section Inputs.

Context {T : Type} `{JSNumber T}.
Local Open Scope js_scope.

(** A single flat triangle in the plane z = 0: a mesh that encloses no
    volume. *)
Definition flatTriangle : BufferGeometry T :=
  Geometry [Vec3 (num 0) (num 0) (num 0);
            Vec3 (num 1) (num 0) (num 0);
            Vec3 (num 0) (num 1) (num 0)] None.

(** The cube of side 2 centred at the origin, indexed, wound outwards.  The
    triangles of its four sides are listed so that each of the three
    positions of the odd vertex occurs, for one vertex under and for two. *)
Definition cubeVertices : list (Vector3 T) :=
  [Vec3 (num (-1)) (num (-1)) (num (-1)); Vec3 (num 1) (num (-1)) (num (-1));
   Vec3 (num 1) (num 1) (num (-1));       Vec3 (num (-1)) (num 1) (num (-1));
   Vec3 (num (-1)) (num (-1)) (num 1);    Vec3 (num 1) (num (-1)) (num 1);
   Vec3 (num 1) (num 1) (num 1);          Vec3 (num (-1)) (num 1) (num 1)].

Definition cubeIndex : list nat :=
  [0; 3; 2;  0; 2; 1;      (* bottom *)
   4; 5; 6;  4; 6; 7;      (* top *)
   0; 1; 5;  5; 4; 0;      (* y = -1 *)
   6; 3; 7;  3; 6; 2;      (* y = 1 *)
   0; 4; 7;  7; 3; 0;      (* x = -1 *)
   1; 2; 6;  1; 6; 5]%nat. (* x = 1 *)

Definition cube : BufferGeometry T := Geometry cubeVertices (Some cubeIndex).

(** A tetrahedron on the origin with legs of length [s] along the axes, as
    a flat vertex list (the layout an STL file loads to), wound outwards. *)
Definition tetrahedron (s : T) : BufferGeometry T :=
  let a := Vec3 (num 0) (num 0) (num 0) in
  let b := Vec3 s (num 0) (num 0) in
  let c := Vec3 (num 0) s (num 0) in
  let d := Vec3 (num 0) (num 0) s in
  Geometry [a; c; b;  a; b; d;  a; d; c;  b; c; d] None.

End Inputs.

(** * The geometry as the loops read it *)

Section Reading.

Context {T : Type} `{JSNumber T}.
Local Open Scope js_scope.

(** The vertices the two loops can read, slot by slot, and those left over
    once the whole triangles are taken: the one or two vertices of a last,
    incomplete triangle. *)
Definition vertices (geometry : BufferGeometry T) : list (Vector3 T) :=
  map (vertexAt geometry) (seq 0 (count geometry)).

Definition strayVertices (geometry : BufferGeometry T) : list (Vector3 T) :=
  skipn (3 * (count geometry / 3)) (vertices geometry).

(** three.js's [toNonIndexed]: the vertices written out in the order of the
    index. *)
Definition toNonIndexed (geometry : BufferGeometry T) : BufferGeometry T :=
  match geometry.(index) with
  | Some idx =>
      Geometry (map (fun i => nth i geometry.(position) undefinedVector) idx) None
  | None => geometry
  end.








(** The unit tetrahedron followed by one more vertex, at height [zs]: a
    vertex list whose length is not a multiple of 3. *)
Definition strayVertexMesh (zs : T) : BufferGeometry T :=
  Geometry (position (tetrahedron (num 1)) ++ [Vec3 (num 0) (num 0) zs]) None.

End Reading.

(** * Scene.tsx: the cube of a weight; projectedArea: the pixels *)

Section SceneAndArea.

Context {T : Type} `{JSNumber T}.
Local Open Scope js_scope.

(** [size] in [WeightModel]; [Math_cbrt] is [Math.cbrt]. *)
Definition WeightModel_size (Math_cbrt : T -> T) (mass baseDensity : T) : T :=
  Math_max (lit 2 1) (Math_cbrt (mass / baseDensity) * lit 5 1).




End SceneAndArea.

(** * App.tsx: the list of external weights and its form *)

Module App.

Import String.StringSyntax.

Section App.

Context {T : Type} `{JSNumber T}.
Local Open Scope string_scope.
Local Open Scope js_scope.

(** [Math.PI]; three.js's [MathUtils] derives its two factors from it. *)
Variable Math_PI : T.

Definition DEG2RAD : T := Math_PI / num 180.
Definition RAD2DEG : T := num 180 / Math_PI.
Definition degToRad (degrees : T) : T := degrees * DEG2RAD.
Definition radToDeg (radians : T) : T := radians * RAD2DEG.

(** [ExternalWeight] of [types.ts] with all its fields; the optional ones
    are [None] when absent. *)
Record Weight : Type := MakeWeight {
  id : String.string;
  mass : T;
  position : Vector3 T;
  rotation : option (Vector3 T);
  color : String.string;
  stlUrl : option String.string;
  scale : option T
}.

(** What [Solver.tsx] reads of a weight. *)
Definition toSolver (w : Weight) : ExternalWeight.t T :=
  ExternalWeight.Make w.(mass) w.(position).

(** The [useState] cells of the form. *)
Record Form : Type := MakeForm {
  formMass : T;
  formX : T; formY : T; formZ : T;
  formRotX : T; formRotY : T; formRotZ : T;
  formWeightFile : option String.string;
  formWeightScale : T
}.

(** The cells of [App] the handlers of the weights read or write. *)
Record State : Type := MakeState {
  weights : list Weight;
  selectedWeightId : option String.string;
  form : Form
}.

Definition setWeights (ws : list Weight) (app : State) : State :=
  MakeState ws app.(selectedWeightId) app.(form).
Definition setSelectedWeightId (sel : option String.string) (app : State) : State :=
  MakeState app.(weights) sel app.(form).
Definition setForm (f : Form) (app : State) : State :=
  MakeState app.(weights) app.(selectedWeightId) f.

Definition setFormMass (v : T) (f : Form) : Form :=
  MakeForm v f.(formX) f.(formY) f.(formZ) f.(formRotX) f.(formRotY) f.(formRotZ)
           f.(formWeightFile) f.(formWeightScale).
Definition setFormX (v : T) (f : Form) : Form :=
  MakeForm f.(formMass) v f.(formY) f.(formZ) f.(formRotX) f.(formRotY) f.(formRotZ)
           f.(formWeightFile) f.(formWeightScale).
Definition setFormY (v : T) (f : Form) : Form :=
  MakeForm f.(formMass) f.(formX) v f.(formZ) f.(formRotX) f.(formRotY) f.(formRotZ)
           f.(formWeightFile) f.(formWeightScale).
Definition setFormZ (v : T) (f : Form) : Form :=
  MakeForm f.(formMass) f.(formX) f.(formY) v f.(formRotX) f.(formRotY) f.(formRotZ)
           f.(formWeightFile) f.(formWeightScale).
Definition setFormRotX (v : T) (f : Form) : Form :=
  MakeForm f.(formMass) f.(formX) f.(formY) f.(formZ) v f.(formRotY) f.(formRotZ)
           f.(formWeightFile) f.(formWeightScale).
Definition setFormRotY (v : T) (f : Form) : Form :=
  MakeForm f.(formMass) f.(formX) f.(formY) f.(formZ) f.(formRotX) v f.(formRotZ)
           f.(formWeightFile) f.(formWeightScale).
Definition setFormRotZ (v : T) (f : Form) : Form :=
  MakeForm f.(formMass) f.(formX) f.(formY) f.(formZ) f.(formRotX) f.(formRotY) v
           f.(formWeightFile) f.(formWeightScale).
Definition setFormWeightFile (v : option String.string) (f : Form) : Form :=
  MakeForm f.(formMass) f.(formX) f.(formY) f.(formZ) f.(formRotX) f.(formRotY) f.(formRotZ)
           v f.(formWeightScale).
Definition setFormWeightScale (v : T) (f : Form) : Form :=
  MakeForm f.(formMass) f.(formX) f.(formY) f.(formZ) f.(formRotX) f.(formRotY) f.(formRotZ)
           f.(formWeightFile) v.

(** The initial values of the form, which [deselectWeight] restores. *)
Definition defaultForm : Form :=
  MakeForm (num 100) (num 0) (num 0) (num 1) (num 0) (num 0) (num 0) None (num 1).

Definition initialState : State := MakeState [] None defaultForm.

(** A number is falsy when it is 0 or NaN: neither below nor above 0. *)
Definition falsy (v : T) : bool := negb (v <? num 0) && negb (num 0 <? v).

(** [scale || 1.0]. *)
Definition scaleOr1 (s : option T) : T :=
  match s with
  | Some v => if falsy v then num 1 else v
  | None => num 1
  end.

(** A string is truthy unless it is null or empty. *)
Definition truthy (s : option String.string) : bool :=
  match s with
  | Some v => negb (String.eqb v String.EmptyString)
  | None => false
  end.

(** [selectWeight(id)].  The handlers are closures of one render: what they
    read is the state [app] of that render, what they set goes to the state
    that is pending. *)
Definition selectWeight (app : State) (id' : String.string) (pending : State) : State :=
  match find (fun item => String.eqb item.(id) id') app.(weights) with
  | Some w =>
      let rot (c : Vector3 T -> T) :=
        match w.(rotation) with
        | Some r => radToDeg (c r)
        | None => num 0
        end in
      setForm (MakeForm w.(mass) w.(position).(x) w.(position).(y) w.(position).(z)
                        (rot (@x T)) (rot (@y T)) (rot (@z T))
                        None (scaleOr1 w.(scale)))
              (setSelectedWeightId (Some id') pending)
  | None => pending
  end.

Definition deselectWeight (pending : State) : State :=
  setForm defaultForm (setSelectedWeightId None pending).

Inductive Field : Type :=
| field_mass | field_x | field_y | field_z | field_scale
| field_rotX | field_rotY | field_rotZ.

Definition isField (a b : Field) : bool :=
  match a, b with
  | field_mass, field_mass | field_x, field_x | field_y, field_y | field_z, field_z
  | field_scale, field_scale | field_rotX, field_rotX | field_rotY, field_rotY
  | field_rotZ, field_rotZ => true
  | _, _ => false
  end.

(** The weight [handleInputChange] puts in place of the selected one. *)
Definition editWeight (app : State) (field : Field) (value : T) (w : Weight) : Weight :=
  let newPos :=
    Vec3 (if isField field field_x then value else w.(position).(x))
         (if isField field field_y then value else w.(position).(y))
         (if isField field field_z then value else w.(position).(z)) in
  let currentRotX := if isField field field_rotX then value else app.(form).(formRotX) in
  let currentRotY := if isField field field_rotY then value else app.(form).(formRotY) in
  let currentRotZ := if isField field field_rotZ then value else app.(form).(formRotZ) in
  let newRot := Vec3 (degToRad currentRotX) (degToRad currentRotY) (degToRad currentRotZ) in
  MakeWeight w.(id)
             (if isField field field_mass then value else w.(mass))
             newPos
             (Some newRot)
             w.(color)
             w.(stlUrl)
             (if isField field field_scale then Some value else w.(scale)).

Definition handleInputChange (app : State) (field : Field) (value : T) : State :=
  let f :=
    match field with
    | field_mass => setFormMass value
    | field_x => setFormX value
    | field_y => setFormY value
    | field_z => setFormZ value
    | field_scale => setFormWeightScale value
    | field_rotX => setFormRotX value
    | field_rotY => setFormRotY value
    | field_rotZ => setFormRotZ value
    end in
  let pending := setForm (f app.(form)) app in
  if truthy app.(selectedWeightId) then
    setWeights
      (map (fun w =>
              if match app.(selectedWeightId) with
                 | Some sel => String.eqb w.(id) sel
                 | None => false
                 end
              then editWeight app field value w
              else w)
           pending.(weights))
      pending
  else pending.

(** [addWeight].  [uuid] is what [crypto.randomUUID()] returns and
    [objectUrl] what [URL.createObjectURL] returns for the file of the
    form, when there is one. *)
Definition newWeight (app : State) (uuid objectUrl : String.string) : Weight :=
  MakeWeight uuid
             app.(form).(formMass)
             (Vec3 app.(form).(formX) app.(form).(formY) app.(form).(formZ))
             (Some (Vec3 (degToRad app.(form).(formRotX))
                         (degToRad app.(form).(formRotY))
                         (degToRad app.(form).(formRotZ))))
             "#ef4444"
             (match app.(form).(formWeightFile) with
              | Some _ => Some objectUrl
              | None => None
              end)
             (Some app.(form).(formWeightScale)).

Definition addWeight (app : State) (uuid objectUrl : String.string) : State :=
  let pending := setWeights (app.(weights) ++ [newWeight app uuid objectUrl]) app in
  let pending := setForm (setFormWeightFile None pending.(form)) pending in
  selectWeight app uuid pending.

(** [removeWeight(id, e)]: the new state, and the object URLs it revokes. *)
Definition removeWeight (app : State) (id' : String.string)
  : State * list String.string :=
  let revoked :=
    match find (fun item => String.eqb item.(id) id') app.(weights) with
    | Some w => if truthy w.(stlUrl) then
                  match w.(stlUrl) with Some u => [u] | None => [] end
                else []
    | None => []
    end in
  let pending :=
    setWeights (filter (fun w => negb (String.eqb w.(id) id')) app.(weights)) app in
  let pending :=
    match app.(selectedWeightId) with
    | Some sel => if String.eqb sel id' then deselectWeight pending else pending
    | None => pending
    end in
  (pending, revoked).

End App.

Arguments Weight T : clear implicits.
Arguments Form T : clear implicits.
Arguments State T : clear implicits.

End App.

(** [Math.PI] on binary64. *)
Definition Math_PI_binary64 : float := 0x1.921fb54442d18p+1%float.

Section AppExamples.

Import String.StringSyntax.
Local Open Scope string_scope.

Context {T : Type} `{JSNumber T}.
Variable Math_PI : T.

(** One weight, added from the initial form with a rotation of [deg] degrees
    about x. *)
Definition oneWeight (deg : T) : App.State T :=
  App.addWeight Math_PI
    (App.handleInputChange Math_PI App.initialState App.field_rotX deg) "w1" "blob:1".

End AppExamples.

(** * Tactics for the concrete meshes *)



(** A [Forall] over the triangles of a concrete geometry, each instance
    being closed by [tac]. *)
Ltac forall_triangles tac :=
  repeat (apply Forall_cons; [tac |]); apply Forall_nil.

(** Reads the operations of [JSNumber] at [R] as the operations of [R]. *)
Ltac to_R :=
  cbn [add sub mul div neg num Math_abs Math_min Math_max ltb leb NaN exactR] in *.

(** * The triangles the loops read *)

Section Triangles.

Context {T : Type} `{JSNumber T}.




End Triangles.

(** * The frame callback and the mounting of the solver *)

Section Mounting.

Context {T : Type} `{JSNumber T}.

(** Without a mesh, or without the group to move, a tick does nothing. *)
Lemma useFrame_without_mesh upd targetRef base ws (wd : T) s :
  useFrame upd None targetRef base ws wd s = (s, None).
Proof. reflexivity. Qed.

Lemma useFrame_without_target upd (g : option (BufferGeometry T)) base ws (wd : T) s :
  useFrame upd g false base ws wd s = (s, None).
Proof. destruct g; reflexivity. Qed.

(** A new mesh has a new key: the solver is mounted afresh and its pose is
    the initial one.  The same key keeps the pose. *)
Lemma renderSolver_new_key (mounted : SolverInstance T) (k : option nat) :
  sameKey (key mounted) k = false -> renderSolver mounted k = Mounted k initialState.
Proof. intros Hk. unfold renderSolver. now rewrite Hk. Qed.

Lemma renderSolver_same_key (mounted : SolverInstance T) (k : option nat) :
  sameKey (key mounted) k = true -> renderSolver mounted k = mounted.
Proof. intros Hk. unfold renderSolver. now rewrite Hk. Qed.

End Mounting.

(** * What the code does on binary64 numbers *)

Section Binary64.

Local Open Scope float_scope.

(** The decimal constants of the source, as [lit] builds them, are the
    doubles the JavaScript literals denote. *)
#[warnings="-inexact-float"]
Example literals_binary64 :
  (EPSILON : float) = 1e-5
  /\ (GRAVITY : float) = 9.81
  /\ (DAMPING_TRANSLATION : float) = 0.1
  /\ (DAMPING_ROTATION : float) = 0.05
  /\ (lit 5 5 : float) = 0.00005
  /\ (lit 2 2 : float) = 0.02
  /\ (lit 5 1 : float) = 0.5.
Proof. repeat split; reflexivity. Qed.

Lemma NaN_minus (a : float) : nan - a = nan.
Proof. apply Prim2SF_inj. rewrite sub_spec. reflexivity. Qed.

Lemma NaN_plus (a : float) : nan + a = nan.
Proof. apply Prim2SF_inj. rewrite add_spec. reflexivity. Qed.

Lemma float_not_below_zero (a : float) : (0 <=? a) = true -> (a <? 0) = false.
Proof.
  rewrite leb_spec, ltb_spec.
  change (Prim2SF 0) with (S754_zero false).
  destruct (Prim2SF a) as [sg | sg | | sg m e]; try destruct sg; cbn; congruence.
Qed.

(** ** The order of binary64 *)

Lemma SFcompare_antisym (a b : spec_float) :
  SFcompare b a = option_map CompOpp (SFcompare a b).
Proof.
  destruct a as [sa | sa | | sa ma ea], b as [sb | sb | | sb mb eb];
    try destruct sa; try destruct sb; cbn; try reflexivity;
    rewrite (Z.compare_antisym ea eb); destruct (ea ?= eb)%Z; cbn; try reflexivity;
    pose proof (Pos.compare_cont_antisym ma mb Eq) as Hm; cbn in Hm; rewrite <- Hm;
    destruct (Pos.compare_cont Eq ma mb); reflexivity.
Qed.

Lemma SFcompare_refl (a : spec_float) : a <> S754_nan -> SFcompare a a = Some Eq.
Proof.
  destruct a as [sa | sa | | sa ma ea]; try destruct sa; cbn; try congruence;
    intros _; rewrite Z.compare_refl, Pos.compare_cont_refl; reflexivity.
Qed.

Lemma is_nan_true (a : float) : is_nan a = true -> a = nan.
Proof.
  unfold is_nan. rewrite FloatAxioms.eqb_spec. unfold SFeqb. intros Hn.
  destruct (Prim2SF a) eqn:E;
    try (rewrite (@SFcompare_refl _) in Hn by discriminate; discriminate).
  rewrite <- (SF2Prim_Prim2SF a), E. reflexivity.
Qed.

Lemma ltb_asym (a b : float) : (a <? b) = true -> (b <? a) = false.
Proof.
  rewrite !ltb_spec. unfold SFltb. rewrite (SFcompare_antisym (Prim2SF a) (Prim2SF b)).
  destruct (SFcompare (Prim2SF a) (Prim2SF b)) as [[| |] |]; cbn; congruence.
Qed.

Lemma is_nan_false (a : float) : is_nan a = false -> Prim2SF a <> S754_nan.
Proof.
  unfold is_nan. rewrite FloatAxioms.eqb_spec. intros Hn E. rewrite E in Hn. discriminate.
Qed.

Lemma SFcompare_numbers (a b : spec_float) :
  a <> S754_nan -> b <> S754_nan -> exists c, SFcompare a b = Some c.
Proof.
  destruct a, b; cbn; intros Ha Hb; try congruence; eexists; reflexivity.
Qed.

Lemma not_ltb_leb (a b : float) :
  is_nan a = false -> is_nan b = false -> (a <? b) = false -> (b <=? a) = true.
Proof.
  intros Ha Hb. apply is_nan_false in Ha, Hb.
  rewrite ltb_spec, leb_spec. unfold SFltb, SFleb.
  rewrite (SFcompare_antisym (Prim2SF a) (Prim2SF b)).
  destruct (SFcompare_numbers Ha Hb) as [c ->]. destruct c; cbn; congruence.
Qed.

(** [Math.max(lo, Math.min(hi, v))] is [clamp(v, lo, hi)] on binary64, for
    bounds [lo < 0 < hi], whatever [v] is, NaN and the infinities included. *)
Lemma float_clamp (lo hi v : float) ml el mh eh :
  Prim2SF lo = S754_finite true ml el ->
  Prim2SF hi = S754_finite false mh eh ->
  float_max lo (float_min hi v) = clamp v lo hi.
Proof.
  intros Hlo Hhi.
  assert (Nlo : is_nan lo = false)
    by (unfold is_nan; rewrite FloatAxioms.eqb_spec, Hlo; unfold SFeqb;
        rewrite (@SFcompare_refl _) by discriminate; reflexivity).
  assert (Nhi : is_nan hi = false)
    by (unfold is_nan; rewrite FloatAxioms.eqb_spec, Hhi; unfold SFeqb;
        rewrite (@SFcompare_refl _) by discriminate; reflexivity).
  assert (Slo : get_sign lo = true).
  { unfold get_sign, is_zero. rewrite FloatAxioms.eqb_spec, Hlo. cbn.
    rewrite ltb_spec, Hlo. reflexivity. }
  assert (Shi : get_sign hi = false).
  { unfold get_sign, is_zero. rewrite FloatAxioms.eqb_spec, Hhi. cbn.
    rewrite ltb_spec, Hhi. reflexivity. }
  assert (Hlh : (lo <? hi) = true) by (rewrite ltb_spec, Hlo, Hhi; reflexivity).
  assert (Habove : (hi <? v) = true -> (v <? lo) = false).
  { rewrite !ltb_spec, Hlo, Hhi. unfold SFltb.
    destruct (Prim2SF v) as [sv | sv | | sv mv ev]; try destruct sv; cbn; congruence. }
  unfold clamp, float_max, float_min.
  change (@ltb float float64) with PrimFloat.ltb.
  destruct (is_nan v) eqn:Nv.
  - apply is_nan_true in Nv. subst v. rewrite Nhi, Nlo. cbn.
    rewrite !ltb_spec, Hlo, Hhi. reflexivity.
  - rewrite Nhi. cbn [orb].
    destruct (hi <? v) eqn:E1.
    + rewrite Nlo, Nhi, Hlh, (Habove eq_refl). reflexivity.
    + assert (Hm : (if v <? hi then v else if get_sign hi then hi else v) = v)
        by (rewrite Shi; destruct (v <? hi); reflexivity).
      rewrite Hm, Nlo, Nv. cbn [orb]. rewrite Slo.
      destruct (lo <? v) eqn:E3.
      * rewrite (ltb_asym E3). reflexivity.
      * destruct (v <? lo); reflexivity.
Qed.

(** A clamped step that is not NaN is within its bounds. *)
Lemma float_clamp_bounds (lo hi v : float) ml el mh eh :
  Prim2SF lo = S754_finite true ml el ->
  Prim2SF hi = S754_finite false mh eh ->
  is_nan v = false ->
  (lo <=? clamp v lo hi) = true /\ (clamp v lo hi <=? hi) = true.
Proof.
  intros Hlo Hhi Nv.
  assert (Nlo : is_nan lo = false)
    by (unfold is_nan; rewrite FloatAxioms.eqb_spec, Hlo; unfold SFeqb;
        rewrite (@SFcompare_refl _) by discriminate; reflexivity).
  assert (Nhi : is_nan hi = false)
    by (unfold is_nan; rewrite FloatAxioms.eqb_spec, Hhi; unfold SFeqb;
        rewrite (@SFcompare_refl _) by discriminate; reflexivity).
  assert (Hlh : (lo <=? hi) = true) by (rewrite leb_spec, Hlo, Hhi; reflexivity).
  assert (Hrefl : forall a, is_nan a = false -> (a <=? a) = true).
  { intros a Na. apply is_nan_false in Na. rewrite leb_spec. unfold SFleb.
    now rewrite (@SFcompare_refl _). }
  unfold clamp. change (@ltb float float64) with PrimFloat.ltb.
  destruct (v <? lo) eqn:E1; [split; [now apply Hrefl | exact Hlh] |].
  destruct (hi <? v) eqn:E2; [split; [exact Hlh | now apply Hrefl] |].
  split; now apply not_ltb_leb.
Qed.

(** The three updates of a pass on binary64, with the clamps written as
    [clamp]: they hold for every value of the force and of the offsets. *)
Lemma solverIteration_steps_binary64
      (upd : float -> float -> float -> Matrix4 float) (g : BufferGeometry float)
      (waterDensity totalMass : float) (cogLocal : Vector3 float) (s : SolverState float) :
  positionZ (fst (solverIteration upd g waterDensity totalMass cogLocal s))
  = positionZ s
    + clamp (netForceZ (submergedVol upd g s) waterDensity totalMass * lit 5 5)
            (-0.5) 0.5 * lit 1 1
  /\ rotationX (fst (solverIteration upd g waterDensity totalMass cogLocal s))
     = rotationX s - clamp (dy upd g cogLocal s * lit 2 2) (- lit 5 2) (lit 5 2) * lit 5 2
  /\ rotationY (fst (solverIteration upd g waterDensity totalMass cogLocal s))
     = rotationY s + clamp (dx upd g cogLocal s * lit 2 2) (- lit 5 2) (lit 5 2) * lit 5 2.
Proof.
  unfold solverIteration, submergedVol, dx, dy.
  cbn [fst positionZ rotationX rotationY].
  change (@Math_max float float64) with float_max.
  change (@Math_min float float64) with float_min.
  split; [| split].
  - erewrite (float_clamp (- lit 5 1) (lit 5 1)) by reflexivity. reflexivity.
  - erewrite (float_clamp (- lit 5 2) (lit 5 2)) by reflexivity. reflexivity.
  - erewrite (float_clamp (- lit 5 2) (lit 5 2)) by reflexivity. reflexivity.
Qed.

(** On binary64 the volume [calculateSubmergedProperties] returns is 0, or
    at least [EPSILON], or NaN (when the accumulated sum is). *)
Lemma binary64_volume_range
      (geometry : BufferGeometry float) (matrixWorld : Matrix4 float) :
  subVolume (calculateSubmergedProperties geometry matrixWorld) = 0
  \/ (EPSILON <=? subVolume (calculateSubmergedProperties geometry matrixWorld)) = true
  \/ subVolume (calculateSubmergedProperties geometry matrixWorld) = nan.
Proof.
  unfold calculateSubmergedProperties, submergedResult.
  change (@ltb float float64) with PrimFloat.ltb.
  change (@Math_abs float float64) with PrimFloat.abs.
  destruct (abs (accVolume (clipAccumulate geometry matrixWorld)) <? EPSILON) eqn:E;
    cbn [subVolume]; [left; reflexivity | right].
  destruct (is_nan (abs (accVolume (clipAccumulate geometry matrixWorld)))) eqn:N.
  - right. now apply is_nan_true.
  - left. apply not_ltb_leb; [exact N | reflexivity | exact E].
Qed.

#[export] Instance float64_laws : JSNumberLaws float.
Proof.
  split.
  - reflexivity.
  - reflexivity.
  - exact float_not_below_zero.
Qed.

(** Once a rotation is NaN, a pass of the inner loop leaves it NaN: the
    clamped step is subtracted from it, or added to it. *)
Lemma solverIteration_keeps_NaN upd (g : BufferGeometry float) wd tm c s :
  rotationX s = nan -> rotationY s = nan ->
  rotationX (fst (solverIteration upd g wd tm c s)) = nan
  /\ rotationY (fst (solverIteration upd g wd tm c s)) = nan.
Proof.
  intros Hx Hy. unfold solverIteration. cbn [fst rotationX rotationY].
  rewrite Hx, Hy. split; [apply NaN_minus | apply NaN_plus].
Qed.

Lemma solverLoop_keeps_NaN upd (g : BufferGeometry float) wd tm c n : forall s,
  rotationX s = nan -> rotationY s = nan ->
  rotationX (fst (solverLoop upd n g wd tm c s)) = nan
  /\ rotationY (fst (solverLoop upd n g wd tm c s)) = nan.
Proof.
  induction n as [| k IH]; intros s Hx Hy; [now split |].
  destruct (solverIteration_keeps_NaN upd g wd tm c s Hx Hy) as [Hx' Hy'].
  cbn [solverLoop].
  destruct (solverIteration upd g wd tm c s) as [s' r] eqn:E.
  cbn [fst] in Hx', Hy'.
  destruct k as [| k']; [now split |].
  now apply IH.
Qed.

Lemma useFrame_keeps_NaN upd (g : BufferGeometry float) base ws wd s :
  rotationX s = nan -> rotationY s = nan ->
  rotationX (fst (useFrame upd (Some g) true base ws wd s)) = nan
  /\ rotationY (fst (useFrame upd (Some g) true base ws wd s)) = nan.
Proof. intros Hx Hy. cbn [useFrame negb]. now apply solverLoop_keeps_NaN. Qed.

Lemma afterTicks_keeps_NaN upd (g : BufferGeometry float) base ws wd n : forall s,
  rotationX s = nan -> rotationY s = nan ->
  rotationX (afterTicks upd n (Some g) true base ws wd s) = nan
  /\ rotationY (afterTicks upd n (Some g) true base ws wd s) = nan.
Proof.
  induction n as [| k IH]; intros s Hx Hy; [now split |].
  cbn [afterTicks]. apply IH; now apply useFrame_keeps_NaN.
Qed.

Lemma solverLoop_unfold {T} `{JSNumber T} upd (g : BufferGeometry T) wd tm c k s :
  solverLoop upd (S (S k)) g wd tm c s
  = solverLoop upd (S k) g wd tm c (fst (solverIteration upd g wd tm c s)).
Proof.
  cbn [solverLoop]. destruct (solverIteration upd g wd tm c s) as [s' r]. reflexivity.
Qed.

Lemma afterTicks_unfold {T} `{JSNumber T} upd n (m : option (BufferGeometry T)) t b w wd s :
  afterTicks upd (S n) m t b w wd s
  = afterTicks upd n m t b w wd (fst (useFrame upd m t b w wd s)).
Proof. reflexivity. Qed.

(** A tick on a loaded mesh always reports. *)
Lemma solverLoop_reports {T} `{JSNumber T} upd (g : BufferGeometry T) wd tm c n : forall s,
  snd (solverLoop upd (S n) g wd tm c s) <> None.
Proof.
  induction n as [| k IH]; intros s; cbn [solverLoop];
    destruct (solverIteration upd g wd tm c s) as [s' r]; [discriminate | apply IH].
Qed.

(** The first pass of a tick at the initial pose, when the combined centre
    of gravity is NaN: both rotations become NaN. *)
Lemma first_pass_NaN upd (g : BufferGeometry float) wd tm :
  upd (num 0) (num 0) (num 0) = identityMatrix ->
  let s := fst (solverIteration upd g wd tm (Vec3 nan nan nan) initialState) in
  rotationX s = nan /\ rotationY s = nan.
Proof.
  intros Hupd. unfold solverIteration, initialState.
  cbn [fst rotationX rotationY positionZ]. rewrite Hupd.
  set (cob := center (calculateSubmergedProperties g identityMatrix)).
  change (applyMatrix4 identityMatrix (Vec3 nan nan nan)) with (Vec3 nan nan nan).
  cbn [x y]. change (@sub float float64) with PrimFloat.sub.
  rewrite !NaN_minus. split; reflexivity.
Qed.

(** The clamps of the solver bound an infinite step and pass NaN on. *)
Example clamp_infinity_and_NaN :
  float_max (-0.5) (float_min 0.5 infinity) = 0.5
  /\ float_max (-0.5) (float_min 0.5 neg_infinity) = -0.5
  /\ float_max (-0.5) (float_min 0.5 nan) = nan.
Proof. repeat split; reflexivity. Qed.

(** The cube of side 2: volume 8, centroid at the origin. *)
Example calculateMeshProperties_cube :
  calculateMeshProperties (cube (T := float)) = MeshProps 8 (Vec3 0 0 0).
Proof. vm_compute. reflexivity. Qed.

(** A tick from the initial pose with a NaN centre of gravity. *)
Lemma useFrame_NaN_centre upd (g : BufferGeometry float) base ws wd :
  upd (num 0) (num 0) (num 0) = identityMatrix ->
  combinedCOG_Local base ws = Vec3 nan nan nan ->
  rotationX (fst (useFrame upd (Some g) true base ws wd initialState)) = nan
  /\ rotationY (fst (useFrame upd (Some g) true base ws wd initialState)) = nan.
Proof.
  intros Hupd Hc. cbn [useFrame negb]. rewrite Hc.
  set (tm := fst (totalMassAndMoment base ws)).
  unfold MAX_ITERATIONS. rewrite solverLoop_unfold.
  destruct (first_pass_NaN upd g wd tm Hupd) as [Hx Hy].
  now apply solverLoop_keeps_NaN.
Qed.

(** A division by zero never gives a finite number: it gives NaN or an
    infinity. *)
Lemma division_by_zero (a : float) :
  Prim2SF (a / 0) = S754_nan \/ exists sg, Prim2SF (a / 0) = S754_infinity sg.
Proof.
  rewrite div_spec. change (Prim2SF 0) with (S754_zero false).
  destruct (Prim2SF a) as [sg | sg | | sg m e]; cbn; eauto.
Qed.

(** Whenever the accumulated volume is zero, every component of the centroid
    [calculateMeshProperties] returns is NaN or infinite. *)
Lemma calculateMeshProperties_zero_volume (geometry : BufferGeometry float) :
  accVolume (meshAccumulate geometry) = 0 ->
  volume (calculateMeshProperties geometry) = 0
  /\ Forall (fun c => Prim2SF c = S754_nan \/ exists sg, Prim2SF c = S754_infinity sg)
            [x (cog (calculateMeshProperties geometry));
             y (cog (calculateMeshProperties geometry));
             z (cog (calculateMeshProperties geometry))].
Proof.
  intros Hzero. unfold calculateMeshProperties. cbn [volume cog x y z].
  rewrite Hzero. split; [reflexivity |].
  repeat (apply Forall_cons; [apply division_by_zero |]). apply Forall_nil.
Qed.

(** C1 (the code departs from it): a mesh whose volume is zero.  On the flat
    triangle [calculateMeshProperties] returns volume 0 and divides the zero
    moments by it, so all three components of the centroid are NaN and not
    the origin; [calculateSubmergedProperties], which tests the volume
    first, returns the origin on the same mesh. *)
Theorem calculateMeshProperties_zero_volume_NaN :
  calculateMeshProperties (flatTriangle (T := float))
  = MeshProps 0 (Vec3 nan nan nan)
  /\ calculateSubmergedProperties (flatTriangle (T := float)) identityMatrix
     = Submerged 0 (Vec3 0 0 0).
Proof. split; reflexivity. Qed.

(** C2 (the code departs from it): a tick on a mesh of zero volume is not
    skipped.  With the flat triangle loaded (density 200, water 1025, no
    load) the first tick from the zero pose runs its five passes, reports,
    and leaves both rotations NaN. *)
Theorem useFrame_runs_on_zero_volume_mesh (upd : float -> float -> float -> Matrix4 float) :
  upd (num 0) (num 0) (num 0) = identityMatrix ->
  PhysicalProperties.volume (sceneBaseProps flatTriangle 200) = 0
  /\ snd (useFrame upd (Some flatTriangle) true (sceneBaseProps flatTriangle 200)
                   [] 1025 initialState) <> None
  /\ rotationX (fst (useFrame upd (Some flatTriangle) true (sceneBaseProps flatTriangle 200)
                             [] 1025 initialState)) = nan
  /\ rotationY (fst (useFrame upd (Some flatTriangle) true (sceneBaseProps flatTriangle 200)
                             [] 1025 initialState)) = nan.
Proof.
  intros Hupd. split; [vm_compute; reflexivity |].
  split; [apply solverLoop_reports |].
  apply useFrame_NaN_centre; [exact Hupd | vm_compute; reflexivity].
Qed.

Lemma useFrame_runs_on_zero_volume_mesh_witness :
  rotationX (fst (useFrame (fun dz _ _ : float => heaveMatrix dz) (Some flatTriangle) true
                           (sceneBaseProps flatTriangle 200) [] 1025 initialState)) = nan.
Proof.
  exact (proj1 (proj2 (proj2
           (useFrame_runs_on_zero_volume_mesh (fun dz _ _ => heaveMatrix dz) eq_refl)))).
Defined.

(** C9 (the code departs from it): finite inputs, and a pose that is NaN
    after every number of ticks.  The cube with material density 0 (the
    value the density field has while it is empty) has mass 0; the combined
    centre of gravity is 0 times 1/0, NaN, and [Math.min] and [Math.max]
    return NaN on it, so the clamps do not bound the rotation steps.  The
    pose stays NaN on all later ticks, whatever their inputs are. *)
Theorem pose_NaN_after_any_number_of_ticks
        (upd : float -> float -> float -> Matrix4 float) (n : nat)
        (base' : PhysicalProperties.t float) (ws' : list (ExternalWeight.t float))
        (wd' : float) :
  upd (num 0) (num 0) (num 0) = identityMatrix ->
  sceneBaseProps cube 0 = PhysicalProperties.Make 0 0 8 (Vec3 0 0 0)
  /\ rotationX (afterTicks upd (S n) (Some cube) true (sceneBaseProps cube 0)
                           [] 1025 initialState) = nan
  /\ rotationY (afterTicks upd (S n) (Some cube) true (sceneBaseProps cube 0)
                           [] 1025 initialState) = nan
  /\ rotationX (afterTicks upd n (Some cube) true base' ws' wd'
                           (fst (useFrame upd (Some cube) true (sceneBaseProps cube 0)
                                          [] 1025 initialState))) = nan.
Proof.
  intros Hupd. split; [vm_compute; reflexivity |].
  assert (Hc : combinedCOG_Local (sceneBaseProps cube 0) [] = Vec3 nan nan nan)
    by (vm_compute; reflexivity).
  destruct (useFrame_NaN_centre upd cube (sceneBaseProps cube 0) [] 1025 Hupd Hc) as [Hx Hy].
  rewrite afterTicks_unfold.
  split; [| split]; apply afterTicks_keeps_NaN; assumption.
Qed.

Lemma pose_NaN_after_any_number_of_ticks_witness :
  rotationX (afterTicks (fun dz _ _ : float => heaveMatrix dz) 3 (Some cube) true
                        (sceneBaseProps cube 0) [] 1025 initialState) = nan.
Proof.
  exact (proj1 (proj2
           (pose_NaN_after_any_number_of_ticks
              (fun dz _ _ => heaveMatrix dz) 2 (sceneBaseProps cube 200) [] 1025 eq_refl))).
Defined.

(** C4: the cube of side 2 centred at the origin, under the identity
    transform.  [calculateSubmergedProperties] returns a volume within
    1e-12 of 4 and a centroid whose height is within 1e-12 of -0.5 (and
    which lies on the vertical axis).  The eight side triangles are cut by
    the plane: four have one vertex under and four have two, with the odd
    vertex in each of the three positions. *)
Theorem calculateSubmergedProperties_half_cube :
  (abs (subVolume (calculateSubmergedProperties cube identityMatrix) - 4) <? lit 1 12) = true
  /\ (abs (z (center (calculateSubmergedProperties cube identityMatrix)) - (-0.5))
       <? lit 1 12) = true
  /\ x (center (calculateSubmergedProperties cube identityMatrix)) = 0
  /\ y (center (calculateSubmergedProperties cube identityMatrix)) = 0
  /\ classification (cube (T := float)) identityMatrix
     = [(true, true, true); (true, true, true);
        (false, false, false); (false, false, false);
        (true, true, false); (false, false, true);
        (false, true, false); (true, false, true);
        (true, false, false); (false, true, true);
        (true, true, false); (true, false, false)].
Proof. repeat split; vm_compute; reflexivity. Qed.


End Binary64.

(** * The final test and the classification, at both number types *)

Section BothNumberTypes.

Context {T : Type} `{JSNumberLaws T}.
Local Open Scope js_scope.

Lemma submergedResult_empty :
  submergedResult emptyAccumulator = Submerged (num 0) origin.
Proof.
  unfold submergedResult, emptyAccumulator. cbn [accVolume].
  rewrite abs_zero, zero_below_EPSILON. reflexivity.
Qed.

Lemma clipTriangle_none_under a (vA vB vC : Vector3 T) :
  isUnder vA = false -> isUnder vB = false -> isUnder vC = false ->
  clipTriangle a vA vB vC = a.
Proof.
  intros HA HB HC. unfold clipTriangle, countUnder. rewrite HA, HB, HC. reflexivity.
Qed.

Lemma clipAccumulate_above (m : Matrix4 T) (ts : list (Vector3 T * Vector3 T * Vector3 T)) :
  Forall (fun '(vA, vB, vC) =>
            (num 0 <=? (applyMatrix4 m vA).(z)) = true
            /\ (num 0 <=? (applyMatrix4 m vB).(z)) = true
            /\ (num 0 <=? (applyMatrix4 m vC).(z)) = true) ts ->
  forall a, fold_left (clipStep m) ts a = a.
Proof.
  induction 1 as [| [[vA vB] vC] ts (HA & HB & HC) _ IH]; intros a; [reflexivity |].
  cbn [fold_left clipStep]. rewrite clipTriangle_none_under; [apply IH | | |];
    unfold isUnder; now apply not_below_zero.
Qed.

(** C7: when every vertex of the mesh is on or above the plane in world
    space, no triangle contributes, the accumulated volume is zero, and
    [calculateSubmergedProperties] returns volume 0 and the origin. *)
Theorem calculateSubmergedProperties_entirely_above
        (geometry : BufferGeometry T) (matrixWorld : Matrix4 T) :
  entirelyAbove geometry matrixWorld ->
  Forall (fun '(vA, vB, vC) =>
            countUnder (applyMatrix4 matrixWorld vA) (applyMatrix4 matrixWorld vB)
                       (applyMatrix4 matrixWorld vC) = 0%nat)
         (triangles geometry)
  /\ calculateSubmergedProperties geometry matrixWorld = Submerged (num 0) origin.
Proof.
  intros Habove. split.
  - unfold entirelyAbove in Habove. eapply Forall_impl; [| exact Habove].
    intros [[vA vB] vC] (HA & HB & HC). unfold countUnder, isUnder.
    now rewrite !not_below_zero.
  - unfold calculateSubmergedProperties, clipAccumulate.
    rewrite clipAccumulate_above by exact Habove. apply submergedResult_empty.
Qed.

(** C8: the result of [calculateSubmergedProperties] is decided by the test
    of the accumulated signed volume against [EPSILON].  Below it, volume 0
    and the origin; otherwise the absolute value of the sum and the moments
    divided by the signed sum; and the zero result is returned in the first
    case only. *)
Theorem calculateSubmergedProperties_final_test
        (geometry : BufferGeometry T) (matrixWorld : Matrix4 T) :
  ((Math_abs (accVolume (clipAccumulate geometry matrixWorld)) <? EPSILON) = true ->
   calculateSubmergedProperties geometry matrixWorld = Submerged (num 0) origin)
  /\ ((Math_abs (accVolume (clipAccumulate geometry matrixWorld)) <? EPSILON) = false ->
      calculateSubmergedProperties geometry matrixWorld
      = Submerged (Math_abs (accVolume (clipAccumulate geometry matrixWorld)))
                  (Vec3 (accX (clipAccumulate geometry matrixWorld)
                         / accVolume (clipAccumulate geometry matrixWorld))
                        (accY (clipAccumulate geometry matrixWorld)
                         / accVolume (clipAccumulate geometry matrixWorld))
                        (accZ (clipAccumulate geometry matrixWorld)
                         / accVolume (clipAccumulate geometry matrixWorld))))
  /\ (calculateSubmergedProperties geometry matrixWorld = Submerged (num 0) origin
      <-> (Math_abs (accVolume (clipAccumulate geometry matrixWorld)) <? EPSILON) = true).
Proof.
  unfold calculateSubmergedProperties, submergedResult.
  destruct (Math_abs (accVolume (clipAccumulate geometry matrixWorld)) <? EPSILON) eqn:E.
  - repeat split; auto; discriminate.
  - repeat split; auto; try discriminate.
    intros Hzero. injection Hzero as Hv _. rewrite Hv, zero_below_EPSILON in E.
    discriminate.
Qed.

End BothNumberTypes.

(** Witnesses at binary64: the cube lifted by 1, whose bottom face touches
    the plane, and the half submerged cube. *)
Lemma calculateSubmergedProperties_entirely_above_witness :
  calculateSubmergedProperties (cube (T := float)) (heaveMatrix (num 1))
  = Submerged (num 0) origin.
Proof.
  apply (calculateSubmergedProperties_entirely_above (T := float)).
  unfold entirelyAbove.
  let l := eval vm_compute in (triangles (cube (T := float))) in
  change (triangles (cube (T := float))) with l.
  forall_triangles ltac:(repeat split; vm_compute; reflexivity).
Defined.

Lemma calculateSubmergedProperties_final_test_witness :
  calculateSubmergedProperties (cube (T := float)) identityMatrix = Submerged (num 0) origin
  <-> (Math_abs (accVolume (clipAccumulate (cube (T := float)) identityMatrix)) <? EPSILON)%js
      = true.
Proof.
  exact (proj2 (proj2 (@calculateSubmergedProperties_final_test
                         float float64 float64_laws cube identityMatrix))).
Defined.

(** * The kernel over the real numbers *)

Section ExactArithmetic.

Local Open Scope R_scope.

Lemma Rltb_true (a b : R) : Rltb a b = true <-> a < b.
Proof. unfold Rltb. destruct (Rlt_dec a b); split; intros; try discriminate; tauto. Qed.

Lemma Rltb_false (a b : R) : Rltb a b = false <-> b <= a.
Proof.
  unfold Rltb. destruct (Rlt_dec a b); split; intros; try discriminate; try lra; auto.
Qed.

Lemma Rleb_true (a b : R) : Rleb a b = true <-> a <= b.
Proof. unfold Rleb. destruct (Rle_dec a b); split; intros; try discriminate; tauto. Qed.

Lemma EPSILON_exact : (EPSILON : R) = 1 / 100000.
Proof. reflexivity. Qed.

#[export] Instance exactR_laws : JSNumberLaws R.
Proof.
  split; to_R.
  - apply Rabs_R0.
  - rewrite EPSILON_exact. apply Rltb_true. lra.
  - intros a Ha. apply Rleb_true in Ha. apply Rltb_false. exact Ha.
Qed.

(** ** The final test *)


(** ** The solver's update *)








(** ** Mesh integration *)




(** ** Clipping a mesh that is entirely below the plane *)






















(** ** The half submerged cube, exactly *)







(** The point [intersectPlane] returns is on the plane and on the edge: a
    fraction [t] of the way from the first point, with 0 < t <= 1 when the
    first point is under and the second is not. *)
Lemma intersectPlane_on_edge (p1 p2 : Vector3 R) :
  z p1 < 0 -> 0 <= z p2 ->
  exists t : R,
    t = - z p1 / (z p2 - z p1)
    /\ 0 < t <= 1
    /\ intersectPlane p1 p2
       = Vec3 (x p1 + t * (x p2 - x p1)) (y p1 + t * (y p2 - y p1)) 0
    /\ z p1 + t * (z p2 - z p1) = 0.
Proof.
  intros H1 H2. exists (- z p1 / (z p2 - z p1)).
  assert (Hd : 0 < z p2 - z p1) by lra.
  split; [reflexivity |]. split; [| split].
  - split.
    + apply Rdiv_lt_0_compat; lra.
    + apply (Rmult_le_reg_r (z p2 - z p1)); [exact Hd |].
      unfold Rdiv. rewrite Rmult_assoc, Rinv_l by lra. lra.
  - reflexivity.
  - field. lra.
Qed.

(** ** Winding *)









End ExactArithmetic.

(** * Indexed geometries and left-over vertices *)

Section Indexing.

Context {T : Type} `{JSNumber T}.

Lemma nth_expanded_index (pos : list (Vector3 T)) (idx : list nat) (k : nat) :
  nth k (map (fun i => nth i pos undefinedVector) idx) undefinedVector
  = fromBufferAttribute pos (nth_error idx k).
Proof.
  destruct (nth_error idx k) as [i |] eqn:E; cbn [fromBufferAttribute].
  - apply nth_error_nth. rewrite nth_error_map, E. reflexivity.
  - apply nth_overflow. rewrite length_map. now apply nth_error_None.
Qed.

Lemma triangles_toNonIndexed (geometry : BufferGeometry T) :
  triangles (toNonIndexed geometry) = triangles geometry.
Proof.
  destruct geometry as [pos [idx |]]; [| reflexivity].
  unfold toNonIndexed, triangles, faces, count. cbn [index position].
  rewrite length_map. apply map_ext. intros i.
  unfold triangleAt, vertexAt. cbn [index position fromBufferAttribute].
  now rewrite !nth_expanded_index.
Qed.

(** X1: the index is only a way to name vertices.  Both functions return on
    an indexed geometry what they return on the geometry with the vertices
    written out in the order of the index, at every number type, also when
    an index entry points past the end of the positions. *)
Theorem toNonIndexed_same_properties (geometry : BufferGeometry T) :
  calculateMeshProperties (toNonIndexed geometry) = calculateMeshProperties geometry
  /\ forall matrixWorld : Matrix4 T,
       calculateSubmergedProperties (toNonIndexed geometry) matrixWorld
       = calculateSubmergedProperties geometry matrixWorld.
Proof.
  split; [| intros matrixWorld];
    unfold calculateMeshProperties, meshAccumulate, calculateSubmergedProperties,
      clipAccumulate;
    now rewrite triangles_toNonIndexed.
Qed.

Lemma vertexAt_overflow (geometry : BufferGeometry T) (k : nat) :
  (count geometry <= k)%nat -> vertexAt geometry k = undefinedVector.
Proof.
  unfold count, vertexAt. destruct (index geometry) as [idx |]; intros Hk.
  - apply nth_error_None in Hk. now rewrite Hk.
  - cbn [fromBufferAttribute]. now apply nth_overflow.
Qed.

Lemma faces_div (geometry : BufferGeometry T) :
  faces geometry
  = (count geometry / 3 + if Nat.eqb (count geometry mod 3) 0 then 0 else 1)%nat.
Proof.
  unfold faces. pose proof (Nat.div_mod_eq (count geometry) 3) as Hd.
  pose proof (Nat.mod_upper_bound (count geometry) 3 ltac:(lia)) as Hm.
  set (q := (count geometry / 3)%nat) in *. set (r := (count geometry mod 3)%nat) in *.
  rewrite Hd. destruct r as [| [| [| r]]]; cbn [Nat.eqb]; try lia.
  - replace (3 * q + 0 + 2)%nat with (2 + q * 3)%nat by lia.
    rewrite Nat.div_add by lia. cbn. lia.
  - replace (3 * q + 1 + 2)%nat with (0 + (q + 1) * 3)%nat by lia.
    rewrite Nat.div_add by lia. cbn. lia.
  - replace (3 * q + 2 + 2)%nat with (1 + (q + 1) * 3)%nat by lia.
    rewrite Nat.div_add by lia. cbn. lia.
Qed.

(** With a vertex left over, the loops read one more triangle, whose last
    vertex is past the end. *)
Lemma triangles_incomplete (geometry : BufferGeometry T) :
  (count geometry mod 3 <> 0)%nat ->
  triangles geometry
  = map (triangleAt geometry) (seq 0 (count geometry / 3))
    ++ [(vertexAt geometry (count geometry / 3 * 3),
         vertexAt geometry (count geometry / 3 * 3 + 1),
         undefinedVector)].
Proof.
  intros Hr. unfold triangles. rewrite faces_div.
  destruct (Nat.eqb_spec (count geometry mod 3) 0) as [E | _]; [contradiction |].
  rewrite seq_app, map_app. cbn [seq map Nat.add]. f_equal.
  unfold triangleAt. do 2 f_equal. f_equal. apply vertexAt_overflow.
  pose proof (Nat.div_mod_eq (count geometry) 3) as Hd.
  pose proof (Nat.mod_upper_bound (count geometry) 3 ltac:(lia)) as Hm. lia.
Qed.

Lemma triangles_complete (geometry : BufferGeometry T) :
  (count geometry mod 3 = 0)%nat ->
  triangles geometry = map (triangleAt geometry) (seq 0 (count geometry / 3)).
Proof.
  intros Hr. unfold triangles. rewrite faces_div, Hr. cbn [Nat.eqb].
  now rewrite Nat.add_0_r.
Qed.

Lemma strayVertices_seq (geometry : BufferGeometry T) :
  strayVertices geometry
  = map (vertexAt geometry) (seq (count geometry / 3 * 3) (count geometry mod 3)).
Proof.
  unfold strayVertices, vertices. rewrite skipn_map, skipn_seq. do 2 f_equal; [lia |].
  pose proof (Nat.div_mod_eq (count geometry) 3). lia.
Qed.


End Indexing.

(** * Left-over vertices on binary64 *)

Section LeftOverVertices.

Local Open Scope float_scope.

(** NaN goes through every operation. *)
Lemma NaN_times (a : float) : nan * a = nan.
Proof. apply Prim2SF_inj. rewrite mul_spec. reflexivity. Qed.

Lemma times_NaN (a : float) : a * nan = nan.
Proof.
  apply Prim2SF_inj. rewrite mul_spec. change (Prim2SF nan) with S754_nan.
  destruct (Prim2SF a); reflexivity.
Qed.

Lemma plus_NaN (a : float) : a + nan = nan.
Proof.
  apply Prim2SF_inj. rewrite add_spec. change (Prim2SF nan) with S754_nan.
  destruct (Prim2SF a); reflexivity.
Qed.

Lemma minus_NaN (a : float) : a - nan = nan.
Proof.
  apply Prim2SF_inj. rewrite sub_spec. change (Prim2SF nan) with S754_nan.
  destruct (Prim2SF a); reflexivity.
Qed.

Lemma NaN_over (a : float) : nan / a = nan.
Proof. apply Prim2SF_inj. rewrite div_spec. reflexivity. Qed.

Lemma over_NaN (a : float) : a / nan = nan.
Proof.
  apply Prim2SF_inj. rewrite div_spec. change (Prim2SF nan) with S754_nan.
  destruct (Prim2SF a); reflexivity.
Qed.

Lemma meshStep_undefined (a : Accumulator float) (p1 p2 : Vector3 float) :
  meshStep a (p1, p2, undefinedVector) = Acc nan nan nan nan.
Proof.
  unfold meshStep, meshTerm, undefinedVector. cbn [x y z].
  cbn [add sub mul div neg NaN float64].
  repeat first [ rewrite NaN_minus | rewrite minus_NaN | rewrite NaN_times
               | rewrite times_NaN | rewrite NaN_plus | rewrite plus_NaN
               | rewrite NaN_over | rewrite over_NaN
               | progress change (- nan) with nan ].
  reflexivity.
Qed.

(** X2: on binary64, when the number of vertices read is not a multiple
    of 3, the loop of [calculateMeshProperties] runs once more on a triangle
    whose last vertex is past the end of the array: the volume and the three
    components of the centroid are NaN, whatever the other vertices are. *)
Theorem calculateMeshProperties_incomplete_triangle (geometry : BufferGeometry float) :
  (count geometry mod 3 <> 0)%nat ->
  calculateMeshProperties geometry = MeshProps nan (Vec3 nan nan nan).
Proof.
  intros Hr. unfold calculateMeshProperties, meshAccumulate.
  rewrite (triangles_incomplete _ Hr), fold_left_app. cbn [fold_left].
  rewrite meshStep_undefined. reflexivity.
Qed.

Lemma applyMatrix4_undefined (m : Matrix4 float) :
  applyMatrix4 m undefinedVector = Vec3 nan nan nan.
Proof.
  unfold applyMatrix4, undefinedVector. cbn [x y z].
  cbn [add sub mul div neg NaN float64].
  repeat first [ rewrite NaN_times | rewrite times_NaN | rewrite NaN_plus
               | rewrite plus_NaN | rewrite over_NaN ].
  reflexivity.
Qed.

Lemma clipTriangle_undefined (a : Accumulator float) (vA vB : Vector3 float) :
  isUnder vA || isUnder vB = true ->
  clipTriangle a vA vB (Vec3 nan nan nan) = Acc nan nan nan nan.
Proof.
  intros Hu. unfold clipTriangle, countUnder.
  change (isUnder (Vec3 nan nan nan)) with false.
  destruct (isUnder vA), (isUnder vB); try discriminate; cbn [Nat.add negb];
    unfold addTriangleContribution, intersectPlane, dot, cross;
    cbn [x y z accVolume accX accY accZ];
    cbn [add sub mul div neg NaN float64];
    repeat first [ rewrite NaN_minus | rewrite minus_NaN | rewrite NaN_times
                 | rewrite times_NaN | rewrite NaN_plus | rewrite plus_NaN
                 | rewrite NaN_over | rewrite over_NaN
                 | progress change (- nan) with nan ];
    reflexivity.
Qed.

(** X3: on binary64, a left-over vertex that is under the plane in world
    space makes [calculateSubmergedProperties] return NaN for the volume and
    for the centre: the cut of an edge that ends past the end of the array
    is NaN, and the final test against [EPSILON] lets NaN through. *)
Theorem calculateSubmergedProperties_stray_vertex_under
        (geometry : BufferGeometry float) (matrixWorld : Matrix4 float) :
  Exists (fun v => isUnder (applyMatrix4 matrixWorld v) = true) (strayVertices geometry) ->
  calculateSubmergedProperties geometry matrixWorld = Submerged nan (Vec3 nan nan nan).
Proof.
  intros Hu. rewrite strayVertices_seq in Hu.
  assert (Hr : (count geometry mod 3 <> 0)%nat).
  { intros E. rewrite E in Hu. inversion Hu. }
  unfold calculateSubmergedProperties, clipAccumulate.
  rewrite (triangles_incomplete _ Hr), fold_left_app. cbn [fold_left clipStep].
  rewrite applyMatrix4_undefined, clipTriangle_undefined; [reflexivity |].
  pose proof (Nat.mod_upper_bound (count geometry) 3 ltac:(lia)) as Hm.
  set (q := (count geometry / 3)%nat) in *.
  destruct (count geometry mod 3)%nat as [| [| [| r]]]; try lia; cbn [seq map] in Hu.
  - inversion Hu as [? ? HA | ? ? HB]; [now rewrite HA | inversion HB].
  - inversion Hu as [? ? HA | ? ? HB]; [now rewrite HA |].
    inversion HB as [? ? HB' | ? ? HC]; [| inversion HC].
    rewrite Nat.add_1_r, HB'. apply orb_true_r.
Qed.

Lemma calculateSubmergedProperties_stray_vertex_under_witness :
  calculateSubmergedProperties (strayVertexMesh (-1)) identityMatrix
  = Submerged nan (Vec3 nan nan nan).
Proof.
  apply calculateSubmergedProperties_stray_vertex_under.
  apply Exists_cons_hd. vm_compute. reflexivity.
Defined.

(** X4: on binary64, left-over vertices that are not under the plane are
    ignored: the result is the one of the whole triangles alone. *)
Theorem calculateSubmergedProperties_stray_vertices_above
        (geometry : BufferGeometry float) (matrixWorld : Matrix4 float) :
  Forall (fun v => isUnder (applyMatrix4 matrixWorld v) = false) (strayVertices geometry) ->
  calculateSubmergedProperties geometry matrixWorld
  = submergedResult
      (fold_left (clipStep matrixWorld) (firstn (count geometry / 3) (triangles geometry))
                 emptyAccumulator).
Proof.
  intros Ha. rewrite strayVertices_seq in Ha.
  unfold calculateSubmergedProperties, clipAccumulate. f_equal.
  destruct (Nat.eq_dec (count geometry mod 3) 0) as [E | Hr].
  - rewrite (triangles_complete _ E).
    rewrite firstn_all2; [reflexivity | now rewrite length_map, length_seq].
  - rewrite (triangles_incomplete _ Hr), fold_left_app.
    rewrite firstn_app, firstn_all2 by (now rewrite length_map, length_seq).
    rewrite length_map, length_seq, Nat.sub_diag. cbn [firstn]. rewrite app_nil_r.
    cbn [fold_left clipStep]. rewrite applyMatrix4_undefined.
    pose proof (Nat.div_mod_eq (count geometry) 3) as Hd.
    set (q := (count geometry / 3)%nat) in *.
    assert (HA : isUnder (applyMatrix4 matrixWorld (vertexAt geometry (q * 3))) = false).
    { destruct (count geometry mod 3)%nat as [| r]; [contradiction |].
      cbn [seq map] in Ha. now inversion Ha. }
    assert (HB : isUnder (applyMatrix4 matrixWorld (vertexAt geometry (q * 3 + 1))) = false).
    { pose proof (Nat.mod_upper_bound (count geometry) 3 ltac:(lia)) as Hm.
      destruct (count geometry mod 3)%nat as [| [| r]] eqn:Er; [contradiction | |].
      - rewrite vertexAt_overflow by lia. rewrite applyMatrix4_undefined. reflexivity.
      - cbn [seq map] in Ha. inversion Ha as [| ? ? _ Ha']. inversion Ha' as [| ? ? HB _].
        now rewrite Nat.add_1_r. }
    unfold clipTriangle, countUnder. rewrite HA, HB.
    change (isUnder (Vec3 nan nan nan)) with false. reflexivity.
Qed.

Lemma calculateSubmergedProperties_stray_vertices_above_witness :
  calculateSubmergedProperties (strayVertexMesh 3) (heaveMatrix (-2))
  = submergedResult
      (fold_left (clipStep (heaveMatrix (-2)))
                 (firstn (count (strayVertexMesh 3) / 3) (triangles (strayVertexMesh 3)))
                 emptyAccumulator).
Proof.
  apply calculateSubmergedProperties_stray_vertices_above.
  apply Forall_cons; [vm_compute; reflexivity | apply Forall_nil].
Defined.

Lemma calculateMeshProperties_incomplete_triangle_witness :
  calculateMeshProperties (strayVertexMesh (-1)) = MeshProps nan (Vec3 nan nan nan).
Proof.
  apply calculateMeshProperties_incomplete_triangle. vm_compute. discriminate.
Defined.

End LeftOverVertices.

(** * What the results do not depend on, over the reals *)

Section Symmetries.

Local Open Scope R_scope.

(** ** The vertex a triangle is named from *)






(** ** The order of the triangles *)





(** ** The side the triangles face *)









(** ** A closed mesh moved by an affine map *)


(** ** The cut of an edge *)


(** ** What is kept of a triangle *)


End Symmetries.

(** * The solver over the reals: ticks, equilibrium, weights *)

Section Equilibrium.

Local Open Scope R_scope.

Variable upd : R -> R -> R -> Matrix4 R.

(** ** A whole tick *)



(** ** Equilibrium *)






(** ** The external weights *)






(** ** A mesh held above the water *)


(** ** A mesh held under the water *)



End Equilibrium.

(** The examples: the unit tetrahedron and the cube of side 2, with a group
    that only heaves. *)

Section Examples.

Local Open Scope R_scope.












End Examples.

(** * What a tick reports *)

Section Reporting.

Context {T : Type} `{JSNumber T}.

Variable upd : T -> T -> T -> Matrix4 T.

Lemma solverLoop_pose (g : BufferGeometry T) (wd tm : T) (c : Vector3 T) (n : nat) :
  forall s,
    fst (solverLoop upd (S n) g wd tm c s)
    = fst (solverLoop upd n g wd tm c (fst (solverIteration upd g wd tm c s))).
Proof.
  intros s. destruct n as [| k]; [| now rewrite solverLoop_unfold].
  cbn [solverLoop]. destruct (solverIteration upd g wd tm c s) as [s' r]. reflexivity.
Qed.

Lemma solverLoop_last_pass (g : BufferGeometry T) (wd tm : T) (c : Vector3 T) (n : nat) :
  forall s,
    solverLoop upd (S n) g wd tm c s
    = (fst (solverIteration upd g wd tm c (fst (solverLoop upd n g wd tm c s))),
       Some (snd (solverIteration upd g wd tm c (fst (solverLoop upd n g wd tm c s))))).
Proof.
  induction n as [| k IH]; intros s.
  - cbn [solverLoop fst]. destruct (solverIteration upd g wd tm c s) as [s' r]. reflexivity.
  - rewrite solverLoop_unfold, IH, (solverLoop_pose g wd tm c k s). reflexivity.
Qed.

(** X18: what a tick reports, at every number type.  The pose it reports
    is the pose it leaves; the submerged volume and the two centres it
    reports are those of the pose the fifth pass started from, one update
    behind. *)
Theorem useFrame_reports_last_pass
        (g : BufferGeometry T) (baseProperties : PhysicalProperties.t T)
        (weights : list (ExternalWeight.t T)) (waterDensity : T) (s : SolverState T) :
  exists (s4 : SolverState T) (r : SolverResult.t T),
    s4 = fst (solverLoop upd 4 g waterDensity (fst (totalMassAndMoment baseProperties weights))
                         (combinedCOG_Local baseProperties weights) s)
    /\ useFrame upd (Some g) true baseProperties weights waterDensity s
       = (State (SolverResult.displacement r) (SolverResult.rotationX r)
                (SolverResult.rotationY r),
          Some r)
    /\ SolverResult.submergedVolume r = submergedVol upd g s4
    /\ SolverResult.cob r
       = center (calculateSubmergedProperties
                   g (upd (positionZ s4) (rotationX s4) (rotationY s4)))
    /\ SolverResult.combinedCOG r
       = applyMatrix4 (upd (positionZ s4) (rotationX s4) (rotationY s4))
                      (combinedCOG_Local baseProperties weights)
    /\ SolverResult.totalMass r = fst (totalMassAndMoment baseProperties weights).
Proof.
  set (s4 := fst (solverLoop upd 4 g waterDensity
                             (fst (totalMassAndMoment baseProperties weights))
                             (combinedCOG_Local baseProperties weights) s)).
  exists s4, (snd (solverIteration upd g waterDensity
                                   (fst (totalMassAndMoment baseProperties weights))
                                   (combinedCOG_Local baseProperties weights) s4)).
  split; [reflexivity |].
  cbn [useFrame negb]. unfold MAX_ITERATIONS. rewrite solverLoop_last_pass. fold s4.
  unfold solverIteration, submergedVol.
  cbn [fst snd SolverResult.displacement SolverResult.rotationX SolverResult.rotationY
       SolverResult.submergedVolume SolverResult.cob SolverResult.combinedCOG
       SolverResult.totalMass].
  repeat split; reflexivity.
Qed.

End Reporting.

(** * Scene.tsx: the cube of a weight *)

Section WeightCube.

Local Open Scope float_scope.

Lemma ltb_leb (a b : float) : (a <? b) = true -> (a <=? b) = true.
Proof.
  rewrite ltb_spec, leb_spec. unfold SFltb, SFleb.
  destruct (SFcompare (Prim2SF a) (Prim2SF b)) as [[| |] |]; congruence.
Qed.

Lemma float_max_lower (a b : float) :
  is_nan a = false -> float_max a b = nan \/ (a <=? float_max a b) = true.
Proof.
  intros Na. unfold float_max. rewrite Na. cbn [orb].
  destruct (is_nan b) eqn:Nb; [left; reflexivity | right].
  assert (Hrefl : (a <=? a) = true).
  { apply is_nan_false in Na. rewrite leb_spec. unfold SFleb.
    now rewrite (@SFcompare_refl _). }
  destruct (a <? b) eqn:E1; [now apply ltb_leb |].
  destruct (b <? a) eqn:E2; [exact Hrefl |].
  destruct (get_sign a); [| exact Hrefl].
  now apply not_ltb_leb.
Qed.

(** X19: on binary64, the cube drawn for a weight has a side of at least
    0.2, or NaN (when the mass over the density is, as for 0 / 0),
    whatever [Math.cbrt] returns. *)
#[warnings="-inexact-float"]
Theorem WeightModel_size_at_least
        (Math_cbrt : float -> float) (mass baseDensity : float) :
  WeightModel_size Math_cbrt mass baseDensity = nan
  \/ (0.2 <=? WeightModel_size Math_cbrt mass baseDensity) = true.
Proof.
  unfold WeightModel_size. change (@Math_max float float64) with float_max.
  change (lit 2 1 : float) with (0x1.999999999999ap-3).
  apply float_max_lower. reflexivity.
Qed.

End WeightCube.

(** * App.tsx: the handlers of the weights *)

Section Weights.

Context {T : Type} `{JSNumber T}.

Variable Math_PI : T.

Lemma find_fresh (ws : list (App.Weight T)) (uuid : String.string) :
  ~ In uuid (map (@App.id T) ws) ->
  find (fun item => String.eqb (App.id item) uuid) ws = None.
Proof.
  intros Hfresh. induction ws as [| w ws IH]; [reflexivity |].
  cbn [find]. destruct (String.eqb_spec (App.id w) uuid) as [E | _].
  - exfalso. apply Hfresh. left. exact E.
  - apply IH. intros Hin. apply Hfresh. right. exact Hin.
Qed.

Lemma addWeight_fresh (app : App.State T) (uuid objectUrl : String.string) :
  ~ In uuid (map (@App.id T) (App.weights app)) ->
  App.addWeight Math_PI app uuid objectUrl
  = App.MakeState (App.weights app ++ [App.newWeight Math_PI app uuid objectUrl])
                  (App.selectedWeightId app)
                  (App.setFormWeightFile None (App.form app)).
Proof.
  intros Hfresh. unfold App.addWeight, App.selectWeight.
  rewrite find_fresh by exact Hfresh. reflexivity.
Qed.

(** X20: [addWeight] appends the weight built from the form and changes
    no other weight.  Its call of [selectWeight] looks the new id up in the
    list of the render the handler belongs to, where it is not (the id is
    fresh): the selection and the fields of the form stay as they are,
    except for the file, which is cleared. *)
Theorem addWeight_appends_without_selecting
        (app : App.State T) (uuid objectUrl : String.string) :
  ~ In uuid (map (@App.id T) (App.weights app)) ->
  App.weights (App.addWeight Math_PI app uuid objectUrl)
  = App.weights app ++ [App.newWeight Math_PI app uuid objectUrl]
  /\ App.selectedWeightId (App.addWeight Math_PI app uuid objectUrl)
     = App.selectedWeightId app
  /\ App.form (App.addWeight Math_PI app uuid objectUrl)
     = App.setFormWeightFile None (App.form app).
Proof. intros Hfresh. rewrite addWeight_fresh by exact Hfresh. repeat split. Qed.

Lemma filter_fresh (ws : list (App.Weight T)) (uuid : String.string) :
  ~ In uuid (map (@App.id T) ws) ->
  filter (fun w => negb (String.eqb (App.id w) uuid)) ws = ws.
Proof.
  intros Hfresh. induction ws as [| w ws IH]; [reflexivity |].
  cbn [filter]. destruct (String.eqb_spec (App.id w) uuid) as [E | _].
  - exfalso. apply Hfresh. left. exact E.
  - cbn [negb]. f_equal. apply IH. intros Hin. apply Hfresh. right. exact Hin.
Qed.

(** X21: [removeWeight] removes the weights with the given id and keeps
    the others in their order; it clears the selection and resets the form
    when the removed weight was the selected one, and leaves both alone
    otherwise; the only object URL it revokes is one of a removed weight. *)
Theorem removeWeight_removes (app : App.State T) (id' : String.string) :
  App.weights (fst (App.removeWeight app id'))
  = filter (fun w => negb (String.eqb (App.id w) id')) (App.weights app)
  /\ ~ In id' (map (@App.id T) (App.weights (fst (App.removeWeight app id'))))
  /\ (forall w, In w (App.weights (fst (App.removeWeight app id')))
                <-> In w (App.weights app) /\ App.id w <> id')
  /\ (App.selectedWeightId app = Some id' ->
      App.selectedWeightId (fst (App.removeWeight app id')) = None
      /\ App.form (fst (App.removeWeight app id')) = App.defaultForm)
  /\ (App.selectedWeightId app <> Some id' ->
      App.selectedWeightId (fst (App.removeWeight app id')) = App.selectedWeightId app
      /\ App.form (fst (App.removeWeight app id')) = App.form app)
  /\ (forall u, In u (snd (App.removeWeight app id')) ->
                exists w, In w (App.weights app) /\ App.id w = id'
                          /\ App.stlUrl w = Some u).
Proof.
  assert (Hw : App.weights (fst (App.removeWeight app id'))
               = filter (fun w => negb (String.eqb (App.id w) id')) (App.weights app)).
  { unfold App.removeWeight. cbn [fst].
    destruct (App.selectedWeightId app) as [sel |]; [| reflexivity].
    destruct (String.eqb sel id'); reflexivity. }
  assert (Hin : forall w, In w (App.weights (fst (App.removeWeight app id')))
                          <-> In w (App.weights app) /\ App.id w <> id').
  { intros w. rewrite Hw, filter_In.
    destruct (String.eqb_spec (App.id w) id'); cbn [negb]; intuition congruence. }
  split; [exact Hw |]. split; [| split; [exact Hin |]].
  - intros Hid. apply in_map_iff in Hid. destruct Hid as (w & Hidw & Hw').
    apply Hin in Hw'. tauto.
  - clear Hw Hin. destruct app as [ws sel f]. unfold App.removeWeight.
    cbn [fst App.selectedWeightId App.weights App.form]. split.
    + intros Hsel. rewrite Hsel, String.eqb_refl. split; reflexivity.
    + split.
      * intros Hsel. destruct sel as [sel |]; [| split; reflexivity].
        destruct (String.eqb_spec sel id') as [E | _]; [congruence | split; reflexivity].
      * intros u Hu. cbn [snd] in Hu.
        destruct (find (fun item => String.eqb (App.id item) id') ws) as [w |] eqn:E;
          [| contradiction].
        apply find_some in E. destruct E as [Hin Hid]. apply String.eqb_eq in Hid.
        exists w. split; [exact Hin | split; [exact Hid |]].
        destruct (App.stlUrl w) as [u' |]; cbn [App.truthy] in Hu.
        -- destruct (negb (String.eqb u' String.EmptyString)); [| contradiction].
           destruct Hu as [-> | []]. reflexivity.
        -- contradiction.
Qed.

(** X22: adding a weight and removing it again gives back the list of
    weights and the selection; of the form only the file is cleared. *)
Theorem addWeight_then_removeWeight (app : App.State T) (uuid objectUrl : String.string) :
  ~ In uuid (map (@App.id T) (App.weights app)) ->
  App.selectedWeightId app <> Some uuid ->
  fst (App.removeWeight (App.addWeight Math_PI app uuid objectUrl) uuid)
  = App.setForm (App.setFormWeightFile None (App.form app)) app.
Proof.
  intros Hfresh Hsel. rewrite addWeight_fresh by exact Hfresh.
  unfold App.removeWeight. cbn [fst App.weights App.selectedWeightId].
  rewrite filter_app, filter_fresh by exact Hfresh. cbn [filter App.newWeight App.id].
  rewrite String.eqb_refl. cbn [negb]. rewrite app_nil_r.
  destruct app as [ws sel f]. cbn [App.selectedWeightId App.weights App.form] in *.
  destruct sel as [sel |]; [| reflexivity].
  destruct (String.eqb_spec sel uuid) as [E | _]; [congruence | reflexivity].
Qed.

Lemma handleInputChange_weights (app : App.State T) (field : App.Field) (value : T) :
  App.weights (App.handleInputChange Math_PI app field value)
  = if App.truthy (App.selectedWeightId app) then
      map (fun w =>
             if match App.selectedWeightId app with
                | Some sel => String.eqb (App.id w) sel
                | None => false
                end
             then App.editWeight Math_PI app field value w
             else w)
          (App.weights app)
    else App.weights app.
Proof.
  unfold App.handleInputChange. destruct (App.truthy (App.selectedWeightId app)); reflexivity.
Qed.

(** X23: [handleInputChange] never adds, removes, reorders or renames a
    weight and never changes the selection; every weight other than the
    selected one stays as it is, and outside the edit mode the list does. *)
Theorem handleInputChange_frame (app : App.State T) (field : App.Field) (value : T) :
  map (@App.id T) (App.weights (App.handleInputChange Math_PI app field value))
  = map (@App.id T) (App.weights app)
  /\ App.selectedWeightId (App.handleInputChange Math_PI app field value)
     = App.selectedWeightId app
  /\ (forall (k : nat) (w : App.Weight T),
        nth_error (App.weights app) k = Some w ->
        App.selectedWeightId app <> Some (App.id w) ->
        nth_error (App.weights (App.handleInputChange Math_PI app field value)) k = Some w)
  /\ (App.truthy (App.selectedWeightId app) = false ->
      App.weights (App.handleInputChange Math_PI app field value) = App.weights app).
Proof.
  rewrite handleInputChange_weights.
  split; [| split; [| split]].
  - destruct (App.truthy (App.selectedWeightId app)); [| reflexivity].
    rewrite map_map. apply map_ext. intros w.
    destruct (match App.selectedWeightId app with
              | Some sel => String.eqb (App.id w) sel
              | None => false
              end); reflexivity.
  - unfold App.handleInputChange.
    destruct (App.truthy (App.selectedWeightId app)); reflexivity.
  - intros k w Hk Hsel.
    destruct (App.truthy (App.selectedWeightId app)); [| exact Hk].
    rewrite nth_error_map, Hk. cbn [option_map].
    destruct (App.selectedWeightId app) as [sel |]; [| reflexivity].
    destruct (String.eqb_spec (App.id w) sel) as [E | _]; [congruence | reflexivity].
  - intros Hf. now rewrite Hf.
Qed.

(** X24: editing the scale or a rotation of the selected weight does not
    change what the solver reads of the weights, their masses and
    positions. *)
Theorem handleInputChange_keeps_physics (app : App.State T) (field : App.Field) (value : T) :
  In field [App.field_scale; App.field_rotX; App.field_rotY; App.field_rotZ] ->
  map (@App.toSolver T) (App.weights (App.handleInputChange Math_PI app field value))
  = map (@App.toSolver T) (App.weights app).
Proof.
  intros Hfield. rewrite handleInputChange_weights.
  destruct (App.truthy (App.selectedWeightId app)); [| reflexivity].
  rewrite map_map. apply map_ext. intros [i m [px py pz] r c u sc].
  destruct (match App.selectedWeightId app with
            | Some sel => String.eqb (App.id _) sel
            | None => false
            end); [| reflexivity].
  cbn [In] in Hfield.
  destruct Hfield as [<- | [<- | [<- | [<- | []]]]]; reflexivity.
Qed.

End Weights.

Section WeightsOverReals.

Import String.StringSyntax.
Local Open Scope string_scope.
Local Open Scope R_scope.





Lemma addWeight_appends_without_selecting_witness :
  App.selectedWeightId (App.addWeight PI App.initialState "w1" "blob:1") = None.
Proof.
  apply (@addWeight_appends_without_selecting R _ PI App.initialState "w1" "blob:1").
  cbn. tauto.
Defined.

Lemma addWeight_then_removeWeight_witness :
  fst (App.removeWeight (App.addWeight PI App.initialState "w1" "blob:1") "w1")
  = App.setForm (App.setFormWeightFile None (App.form App.initialState)) App.initialState.
Proof.
  apply (@addWeight_then_removeWeight R _ PI App.initialState "w1" "blob:1").
  - cbn. tauto.
  - discriminate.
Defined.

Lemma handleInputChange_keeps_physics_witness :
  map (@App.toSolver R)
      (App.weights (App.handleInputChange PI (App.selectWeight PI (oneWeight PI 0) "w1"
                                                               (oneWeight PI 0))
                                          App.field_rotX 90))
  = map (@App.toSolver R) (App.weights (App.selectWeight PI (oneWeight PI 0) "w1"
                                                         (oneWeight PI 0))).
Proof.
  apply handleInputChange_keeps_physics. cbn. tauto.
Defined.


End WeightsOverReals.

Section WeightsBinary64.

Import String.StringSyntax.
Local Open Scope string_scope.
Local Open Scope float_scope.

(** The same on binary64, for a weight turned by 105 degrees: the form
    shows 105.00000000000001, and the edit of the mass writes back a
    rotation that differs from the one stored in its last bit. *)
#[warnings="-inexact-float"]
Example edit_mass_drifts_on_binary64 :
  map (@App.rotation float) (App.weights (oneWeight Math_PI_binary64 105))
  = [Some (Vec3 1.8325957145940461 0 0)]
  /\ App.formRotX (App.form (App.selectWeight Math_PI_binary64
                                              (oneWeight Math_PI_binary64 105) "w1"
                                              (oneWeight Math_PI_binary64 105)))
     = 105.00000000000001
  /\ map (@App.rotation float)
         (App.weights
            (App.handleInputChange Math_PI_binary64
               (App.selectWeight Math_PI_binary64 (oneWeight Math_PI_binary64 105) "w1"
                                 (oneWeight Math_PI_binary64 105))
               App.field_mass 50))
     = [Some (Vec3 1.8325957145940464 0 0)].
Proof. repeat split; vm_compute; reflexivity. Qed.

End WeightsBinary64.

(** * projectedArea: the area from the pixels *)

Section ProjectedArea.

Local Open Scope R_scope.




End ProjectedArea.
